(** * Appointment-Booking-Bot: the conversation state machine of google_oauth.py

    A shallow embedding of [parse_date_time], [get_conversation_stage],
    [conversational_flow], [authenticate_google] and [create_event], with the
    Python built-ins they call, followed by the properties of the
    specification.

    Modelling conventions.
    - Text is a [string] of 8-bit characters and the model covers ASCII text:
      [lower], [upper], [strip] and [int] are the ASCII fragments of the
      Python methods of the same name.  [isdigit] is [str.isdigit] on the
      characters of Latin-1, where it accepts three characters that [int]
      refuses; a property that needs the text to be ASCII says so.
    - Library behaviour follows CPython 3.11 on a 64-bit Linux platform with
      the C locale: [int] has the default limit of 4300 digits, [datetime]
      converts its arguments to C [int] before it validates them, and
      [strptime] matches the regular expression that [_strptime] builds for
      the format [%I:%M %p].
    - A Python list that is mutated in place is passed explicitly; a call that
      raises reports the list as the exception leaves it.
    - The file system and the Google services are a [World] record: the two
      files the code looks at, the outcomes of the remote calls, and the
      outcomes of the removals and of the writing of the token file, each of
      which can raise. *)

From Stdlib Require Import String Ascii List ZArith Lia Bool DecimalString.
Import ListNotations.
Local Open Scope string_scope.
Local Open Scope Z_scope.

(** ** Exceptions and results *)

(** [Exception] stands for an exception of any other class: each of them is
    caught by [except Exception] and by no [except ValueError]. *)
Inductive exn : Type :=
| ValueError (msg : string)
| OverflowError (msg : string)
| IndexError (msg : string)
| Exception (msg : string).

(** [str(e)] for an exception built from one message. *)
Definition str_exn (e : exn) : string :=
  match e with
  | ValueError m | OverflowError m | IndexError m | Exception m => m
  end.

Inductive res (A : Type) : Type :=
| Ok (a : A)
| Raise (e : exn).
Arguments Ok {A} a.
Arguments Raise {A} e.

Definition bind {A B : Type} (r : res A) (k : A -> res B) : res B :=
  match r with
  | Ok a => k a
  | Raise e => Raise e
  end.

Notation "x <- r ;; k" := (bind r (fun x => k))
  (at level 61, r at next level, right associativity).

(** [try: r  except ValueError as e: h e]. *)
Definition except_ValueError {A : Type} (r : res A) (h : exn -> res A) : res A :=
  match r with
  | Raise (ValueError m) => h (ValueError m)
  | _ => r
  end.

(** ** Python string methods (ASCII) *)

Module PyStr.

Definition code (c : ascii) : nat := nat_of_ascii c.

Definition in_range (lo hi : nat) (c : ascii) : bool :=
  (Nat.leb lo (code c) && Nat.leb (code c) hi)%bool.

Definition dquote : ascii := "034"%char.
Definition squote : ascii := "039"%char.
Definition backslash : ascii := "092"%char.
Definition newline : ascii := "010"%char.

Definition lower_char (c : ascii) : ascii :=
  if in_range 65 90 c then ascii_of_nat (code c + 32) else c.

Definition upper_char (c : ascii) : ascii :=
  if in_range 97 122 c then ascii_of_nat (code c - 32) else c.

Fixpoint map_chars (f : ascii -> ascii) (s : string) : string :=
  match s with
  | EmptyString => EmptyString
  | String c s' => String (f c) (map_chars f s')
  end.

(** [s.lower()], [s.upper()] *)
Definition lower : string -> string := map_chars lower_char.
Definition upper : string -> string := map_chars upper_char.

(** [c.isspace()]: tab to carriage return, the four separators 28-31,
    and the space. *)
Definition isspace_char (c : ascii) : bool :=
  (in_range 9 13 c || in_range 28 31 c || Nat.eqb (code c) 32)%bool.

(** The decimal digits 0 to 9: what [int] and the [\d] of a regular
    expression take as a digit. *)
Definition isdigit_char (c : ascii) : bool := in_range 48 57 c.

(** [c.isdigit()] for a character of Latin-1: a decimal digit, or one of the
    superscripts two, three and one (178, 179, 185), which [str.isdigit]
    takes as digits and [int] does not. *)
Definition str_isdigit_char (c : ascii) : bool :=
  (isdigit_char c || Nat.eqb (code c) 178 || Nat.eqb (code c) 179
   || Nat.eqb (code c) 185)%bool.

Definition is_ascii_char (c : ascii) : bool := Nat.ltb (code c) 128.

Fixpoint all_chars (p : ascii -> bool) (s : string) : bool :=
  match s with
  | EmptyString => true
  | String c s' => (p c && all_chars p s')%bool
  end.

(** [s.isascii()] *)
Definition isascii (s : string) : bool := all_chars is_ascii_char s.

(** [s.isdigit()]: false on the empty string. *)
Definition isdigit (s : string) : bool :=
  match s with
  | EmptyString => false
  | _ => all_chars str_isdigit_char s
  end.

Fixpoint lstrip (s : string) : string :=
  match s with
  | String c s' => if isspace_char c then lstrip s' else s
  | EmptyString => EmptyString
  end.

Fixpoint rstrip (s : string) : string :=
  match s with
  | EmptyString => EmptyString
  | String c s' =>
      match rstrip s' with
      | EmptyString => if isspace_char c then EmptyString else String c EmptyString
      | t => String c t
      end
  end.

(** [s.strip()] *)
Definition strip (s : string) : string := rstrip (lstrip s).

(** [s.split(sep)] for a one-character separator: one more part than
    there are separators. *)
Fixpoint split (sep : ascii) (s : string) : list string :=
  match s with
  | EmptyString => [EmptyString]
  | String c s' =>
      if Ascii.eqb c sep then EmptyString :: split sep s'
      else match split sep s' with
           | p :: ps => String c p :: ps
           | [] => [String c EmptyString]
           end
  end.

(** [sub in s] *)
Fixpoint contains (sub s : string) : bool :=
  (String.prefix sub s ||
   match s with
   | EmptyString => false
   | String _ s' => contains sub s'
   end)%bool.

Fixpoint has_char (c : ascii) (s : string) : bool :=
  match s with
  | EmptyString => false
  | String d s' => (Ascii.eqb c d || has_char c s')%bool
  end.

Definition hex_digit (n : nat) : ascii :=
  if Nat.ltb n 10 then ascii_of_nat (48 + n) else ascii_of_nat (87 + n).

Definition repr_char (quote : ascii) (c : ascii) : string :=
  if (Ascii.eqb c quote || Ascii.eqb c backslash)%bool
  then String backslash (String c EmptyString)
  else if Nat.eqb (code c) 9 then String backslash "t"
  else if Nat.eqb (code c) 10 then String backslash "n"
  else if Nat.eqb (code c) 13 then String backslash "r"
  else if (Nat.ltb (code c) 32 || Nat.eqb (code c) 127)%bool
  then String backslash
         (String "x" (String (hex_digit (Nat.div (code c) 16))
                        (String (hex_digit (Nat.modulo (code c) 16)) EmptyString)))
  else String c EmptyString.

Fixpoint repr_body (quote : ascii) (s : string) : string :=
  match s with
  | EmptyString => EmptyString
  | String c s' => repr_char quote c ++ repr_body quote s'
  end.

(** [repr(s)]: single quotes, unless the text has a single quote and no
    double quote. *)
Definition repr (s : string) : string :=
  let quote := if (has_char squote s && negb (has_char dquote s))%bool
               then dquote else squote in
  String quote (repr_body quote s ++ String quote EmptyString).

(** The first [n] characters: the precision of a [%.200R] format. *)
Fixpoint truncate (n : nat) (s : string) : string :=
  match n, s with
  | S n', String c s' => String c (truncate n' s')
  | _, _ => EmptyString
  end.

Definition of_nat (n : nat) : string := NilEmpty.string_of_uint (Nat.to_uint n).
Definition of_Z (z : Z) : string := NilEmpty.string_of_int (Z.to_int z).

(** [%02d] and [%04d] for a non-negative number. *)
Definition zero_pad (width : nat) (z : Z) : string :=
  let s := of_Z z in
  let fix zeros (k : nat) : string :=
    match k with
    | O => EmptyString
    | S k' => String "0" (zeros k')
    end in
  zeros (width - String.length s)%nat ++ s.

End PyStr.

(** ** [int(s)] in base 10 *)

Module PyInt.
Import PyStr.

(** [Py_ISSPACE]: narrower than [str.isspace]. *)
Definition c_isspace (c : ascii) : bool :=
  (in_range 9 13 c || Nat.eqb (code c) 32)%bool.

Fixpoint skip_space (s : string) : string :=
  match s with
  | String c s' => if c_isspace c then skip_space s' else s
  | EmptyString => EmptyString
  end.

Definition skip_sign (s : string) : bool * string :=
  match s with
  | String "+" s' => (false, s')
  | String "-" s' => (true, s')
  | _ => (false, s)
  end.

(** The scan of [PyLong_FromString]: digits with single underscores
    between them.  [prev_us] tells that the previous character was an
    underscore; the result is the value, the number of digits and what
    follows the literal, or [None] on a doubled or trailing underscore. *)
Fixpoint scan (s : string) (prev_us : bool) (acc : Z) (digits : nat)
  : option (Z * nat * string) :=
  match s with
  | String c s' =>
      if isdigit_char c
      then scan s' false (10 * acc + Z.of_nat (code c - 48)) (S digits)
      else if Ascii.eqb c "_"
      then (if prev_us then None else scan s' true acc digits)
      else if prev_us then None else Some (acc, digits, s)
  | EmptyString => if prev_us then None else Some (acc, digits, EmptyString)
  end.

Definition max_str_digits : nat := 4300.

Definition invalid_literal (s : string) : exn :=
  ValueError ("invalid literal for int() with base 10: " ++ truncate 200 (repr s)).

Definition exceeds_limit (digits : nat) : exn :=
  ValueError ("Exceeds the limit (" ++ of_nat max_str_digits ++
              " digits) for integer string conversion: value has " ++
              of_nat digits ++
              " digits; use sys.set_int_max_str_digits() to increase the limit").

Definition leading_underscore (s : string) : bool := String.prefix "_" s.

(** [int(s)], in the order of [PyLong_FromString]: blanks, sign, scan of
    the digits, limit on their number, blanks, end of the text. *)
Definition int (s : string) : res Z :=
  let '(negative, body) := skip_sign (skip_space s) in
  if leading_underscore body then Raise (invalid_literal s)
  else
    match scan body false 0 0 with
    | None => Raise (invalid_literal s)
    | Some (value, digits, rest) =>
        if Nat.ltb max_str_digits digits then Raise (exceeds_limit digits)
        else if Nat.eqb digits 0 then Raise (invalid_literal s)
        else match skip_space rest with
             | EmptyString => Ok (if negative then - value else value)
             | _ => Raise (invalid_literal s)
             end
    end.

(** The syntax of an integer token: optional blanks, an optional sign, digits
    with single underscores between them, optional blanks. *)
Definition is_int_literal (s : string) : bool :=
  let '(negative, body) := skip_sign (skip_space s) in
  negb (leading_underscore body) &&
  match scan body false 0 0 with
  | None => false
  | Some (value, digits, rest) =>
      negb (Nat.eqb digits 0) &&
      match skip_space rest with
      | EmptyString => true
      | _ => false
      end
  end.

End PyInt.

(** ** [datetime] *)

Module PyDatetime.
Import PyStr.

Record datetime : Type := mk_datetime
  { year : Z; month : Z; day : Z; hour : Z; minute : Z }.

Definition INT_MAX : Z := 2147483647.
Definition INT_MIN : Z := -2147483648.
Definition LONG_MAX : Z := 9223372036854775807.
Definition LONG_MIN : Z := -9223372036854775808.

(** The [i] format unit of [PyArg_ParseTuple]: a Python integer to a C
    [int]. *)
Definition as_c_int (z : Z) : res Z :=
  if (z >? LONG_MAX) || (z <? LONG_MIN)
  then Raise (OverflowError "Python int too large to convert to C long")
  else if z >? INT_MAX
  then Raise (OverflowError "signed integer is greater than maximum")
  else if z <? INT_MIN
  then Raise (OverflowError "signed integer is less than minimum")
  else Ok z.

Definition is_leap (y : Z) : bool :=
  (y mod 4 =? 0) && (negb (y mod 100 =? 0) || (y mod 400 =? 0)).

Definition days_in_month (y m : Z) : Z :=
  if (m =? 2) && is_leap y then 29
  else nth (Z.to_nat m) [0; 31; 28; 31; 30; 31; 30; 31; 31; 30; 31; 30; 31] 0.

(** [check_date_args] *)
Definition check_date_args (y m d : Z) : res unit :=
  if (y <? 1) || (y >? 9999)
  then Raise (ValueError ("year " ++ of_Z y ++ " is out of range"))
  else if (m <? 1) || (m >? 12)
  then Raise (ValueError "month must be in 1..12")
  else if (d <? 1) || (d >? days_in_month y m)
  then Raise (ValueError "day is out of range for month")
  else Ok tt.

(** [check_time_args], for the hour and the minute. *)
Definition check_time_args (h mi : Z) : res unit :=
  if (h <? 0) || (h >? 23)
  then Raise (ValueError "hour must be in 0..23")
  else if (mi <? 0) || (mi >? 59)
  then Raise (ValueError "minute must be in 0..59")
  else Ok tt.

(** [datetime(year, month, day, hour, minute)] *)
Definition new (y m d h mi : Z) : res datetime :=
  y' <- as_c_int y ;;
  m' <- as_c_int m ;;
  d' <- as_c_int d ;;
  h' <- as_c_int h ;;
  mi' <- as_c_int mi ;;
  _ <- check_date_args y' m' d' ;;
  _ <- check_time_args h' mi' ;;
  Ok (mk_datetime y' m' d' h' mi').

(** A calendar date that [datetime] accepts. *)
Definition valid_date (y m d : Z) : bool :=
  (1 <=? y) && (y <=? 9999) && (1 <=? m) && (m <=? 12) &&
  (1 <=? d) && (d <=? days_in_month y m).

Definition fields (t : datetime) : list Z :=
  [year t; month t; day t; hour t; minute t].

Fixpoint lex_leb (a b : list Z) : bool :=
  match a, b with
  | x :: a', y :: b' => (x <? y) || ((x =? y) && lex_leb a' b')
  | _, _ => true
  end.

(** [a <= b] on two naive datetimes. *)
Definition le (a b : datetime) : bool := lex_leb (fields a) (fields b).

(** [t.isoformat()] with no microseconds and no timezone. *)
Definition isoformat (t : datetime) : string :=
  zero_pad 4 (year t) ++ "-" ++ zero_pad 2 (month t) ++ "-" ++
  zero_pad 2 (day t) ++ "T" ++ zero_pad 2 (hour t) ++ ":" ++
  zero_pad 2 (minute t) ++ ":00".

(** *** [datetime.strptime(s, '%I:%M %p')]

    [_strptime] compiles the format to the regular expression
    [(?P<I>1[0-2]|0[1-9]|[1-9]):(?P<M>[0-5]\d|\d)\s+(?P<p>am|pm)],
    matched at the start of the text and ignoring case; text left after
    the match is an error.  Each matcher below takes the rest of the
    pattern as a continuation, so that alternatives are tried in order. *)

Section Regex.
Context {A : Type}.

Definition orelse (x y : option A) : option A :=
  match x with Some _ => x | None => y end.

Definition digit_val (c : ascii) : Z := Z.of_nat (code c - 48).

(** [1[0-2]|0[1-9]|[1-9]] *)
Definition re_I (s : string) (k : Z -> string -> option A) : option A :=
  orelse
    (match s with
     | String c (String d s') =>
         if Ascii.eqb c "1" && in_range 48 50 d
         then k (10 + digit_val d) s' else None
     | _ => None
     end)
    (orelse
       (match s with
        | String c (String d s') =>
            if Ascii.eqb c "0" && in_range 49 57 d
            then k (digit_val d) s' else None
        | _ => None
        end)
       (match s with
        | String c s' => if in_range 49 57 c then k (digit_val c) s' else None
        | _ => None
        end)).

(** [[0-5]\d|\d] *)
Definition re_M (s : string) (k : Z -> string -> option A) : option A :=
  orelse
    (match s with
     | String c (String d s') =>
         if in_range 48 53 c && isdigit_char d
         then k (10 * digit_val c + digit_val d) s' else None
     | _ => None
     end)
    (match s with
     | String c s' => if isdigit_char c then k (digit_val c) s' else None
     | _ => None
     end).

Definition re_char (c : ascii) (s : string) (k : string -> option A) : option A :=
  match s with
  | String d s' => if Ascii.eqb c d then k s' else None
  | _ => None
  end.

(** [\s+], greedy. *)
Fixpoint re_spaces (s : string) (k : string -> option A) : option A :=
  match s with
  | String c s' =>
      if isspace_char c then orelse (re_spaces s' k) (k s') else None
  | _ => None
  end.

(** [am|pm], ignoring case; [true] for pm. *)
Definition re_p (s : string) (k : bool -> string -> option A) : option A :=
  match s with
  | String c (String d s') =>
      if Ascii.eqb (lower_char d) "m"
      then (if Ascii.eqb (lower_char c) "a" then k false s'
            else if Ascii.eqb (lower_char c) "p" then k true s'
            else None)
      else None
  | _ => None
  end.
End Regex.

Definition format_regex (s : string) : option (Z * Z * bool * string) :=
  re_I s (fun i s1 =>
  re_char ":" s1 (fun s2 =>
  re_M s2 (fun m s3 =>
  re_spaces s3 (fun s4 =>
  re_p s4 (fun p rest => Some (i, m, p, rest)))))).

(** The 12-hour clock of [%I] with [%p]. *)
Definition hour_of (i : Z) (pm : bool) : Z :=
  if pm then (if i =? 12 then 12 else i + 12)
  else (if i =? 12 then 0 else i).

Definition strptime (s : string) : res datetime :=
  match format_regex s with
  | None =>
      Raise (ValueError ("time data " ++ repr s ++
                         " does not match format '%I:%M %p'"))
  | Some (i, m, pm, rest) =>
      match rest with
      | EmptyString => Ok (mk_datetime 1900 1 1 (hour_of i pm) m)
      | _ => Raise (ValueError ("unconverted data remains: " ++ rest))
      end
  end.

End PyDatetime.
Import PyDatetime.

(** ** The date and time parser *)

(** [parse_date_time(date_str, time_str)] *)
Definition parse_date_time (date_str time_str : string) : res datetime :=
  except_ValueError
    (let date_parts := PyStr.split "-" date_str in
     if negb (Nat.eqb (List.length date_parts) 3)
     then Raise (ValueError "Date must be in DD-MM-YYYY format")
     else
       match date_parts with
       | [p1; p2; p3] =>
           day <- PyInt.int p1 ;;
           month <- PyInt.int p2 ;;
           year <- PyInt.int p3 ;;
           time_obj <- except_ValueError
                         (strptime (PyStr.upper (PyStr.strip time_str)))
                         (fun _ => Raise (ValueError "Time must be in HH:MM AM/PM format")) ;;
           start_time <- PyDatetime.new year month day (hour time_obj) (minute time_obj) ;;
           Ok start_time
       | _ => Raise (ValueError "not enough values to unpack")  (* excluded by the length test *)
       end)
    (fun e => Raise (ValueError (str_exn e))).

(** ** The calendar gateway *)

Record Credentials : Type := mk_creds
  { valid : bool; expired : bool; refresh_token : bool }.

(** What [token.pickle] holds: bytes that [pickle.load] rejects, or a pickled
    object ([None] included). *)
Inductive token_file : Type :=
| Unreadable
| Pickled (creds : option Credentials).

Record Event : Type := mk_event
  { summary : string;
    start_dateTime : string; start_timeZone : string;
    end_dateTime : string; end_timeZone : string }.

Inductive gateway_call : Type :=
| Authenticate
| Insert (body : Event).

(** How the writing of [token.pickle] (lines 45-46) ends: the credential is
    pickled into the file; [open] raises and there is no new file; or
    [pickle.dump] raises and leaves a file that cannot be loaded. *)
Inductive write_outcome : Type :=
| Written
| OpenFails (e : exn)
| DumpFails (e : exn).

(** The files and the remote services.  [refresh], [consent_flow], [build]
    and [execute] are the outcomes of [creds.refresh(Request())], of the
    consent flow ([from_client_secrets_file] and [run_local_server]), of
    [build] and of [events().insert(...).execute()].  [os_remove n] is the
    outcome of the [n]-th call of [os.remove('token.pickle')] and [removals]
    counts the calls made, since one call of [authenticate_google] can remove
    twice.  [token_write] is the outcome of writing the token file.
    [gateway_calls] is a ghost record of the calls made to the gateway,
    oldest first. *)
Record World : Type := mk_world
  { token_pickle : option token_file;
    credentials_json : bool;
    refresh : Credentials -> res Credentials;
    consent_flow : res Credentials;
    build : res unit;
    execute : Event -> res unit;
    os_remove : nat -> res unit;
    removals : nat;
    token_write : write_outcome;
    gateway_calls : list gateway_call }.

(** The world with another token file. *)
Definition with_token (t : option token_file) (w : World) : World :=
  mk_world t (credentials_json w) (refresh w) (consent_flow w) (build w)
           (execute w) (os_remove w) (removals w) (token_write w)
           (gateway_calls w).

Definition record_call (c : gateway_call) (w : World) : World :=
  mk_world (token_pickle w) (credentials_json w) (refresh w) (consent_flow w)
           (build w) (execute w) (os_remove w) (removals w) (token_write w)
           (gateway_calls w ++ [c])%list.

Definition count_removal (w : World) : World :=
  mk_world (token_pickle w) (credentials_json w) (refresh w) (consent_flow w)
           (build w) (execute w) (os_remove w) (S (removals w)) (token_write w)
           (gateway_calls w).

(** [os.remove('token.pickle')]: the file is gone, or the call raises and
    the file stays. *)
Definition remove_token (w : World) : res unit * World :=
  match os_remove w (removals w) with
  | Ok _ => (Ok tt, with_token None (count_removal w))
  | Raise e => (Raise e, count_removal w)
  end.

(** Lines 45-46: [with open('token.pickle', 'wb') as token:
    pickle.dump(creds, token)]. *)
Definition write_token (creds : Credentials) (w : World) : res unit * World :=
  match token_write w with
  | Written => (Ok tt, with_token (Some (Pickled (Some creds))) w)
  | OpenFails e => (Raise e, w)
  | DumpFails e => (Raise e, with_token (Some Unreadable) w)
  end.

(** The handler of lines 32-34: [os.remove] and [creds = None]; what
    [os.remove] raises there leaves the inner [try]. *)
Definition discard_token (w : World) : res (option Credentials) * World :=
  match remove_token w with
  | (Ok _, w) => (Ok None, w)
  | (Raise e, w) => (Raise e, w)
  end.

(** Lines 27-28 and 30-31, inside the inner [try]: [os.remove] and
    [creds = None]; what [os.remove] raises there is caught by the handler
    of line 32, which removes again. *)
Definition discard_token_in_try (w : World) : res (option Credentials) * World :=
  match remove_token w with
  | (Ok _, w) => (Ok None, w)
  | (Raise _, w) => discard_token w
  end.

(** Lines 17-34 of [authenticate_google]: the cached credential, the cache
    emptied when it cannot be used, or the exception of an [os.remove] that
    no inner handler catches.  [Unreadable] stands for every file of which
    the loading or the use raises. *)
Definition cached_credentials (w : World) : res (option Credentials) * World :=
  match token_pickle w with
  | None => (Ok None, w)
  | Some Unreadable => discard_token w
  | Some (Pickled None) => discard_token_in_try w
  | Some (Pickled (Some creds)) =>
      if valid creds then (Ok (Some creds), w)
      else if expired creds && refresh_token creds
      then match refresh w creds with
           | Ok creds' => (Ok (Some creds'), w)
           | Raise _ => discard_token_in_try w
           end
      else discard_token_in_try w
  end.

Definition authentication_failed (m : string) : exn :=
  Exception ("Authentication failed: " ++ m).

(** [authenticate_google()] *)
Definition authenticate_google (w : World) : res unit * World :=
  let w := record_call Authenticate w in
  let attempt : res unit * World :=
    match cached_credentials w with
    | (Raise e, w) => (Raise e, w)
    | (Ok (Some _), w) => (build w, w)
    | (Ok None, w) =>
        if negb (credentials_json w)
        then (Raise (Exception
                "credentials.json file not found. Please download it from Google Cloud Console."),
              w)
        else match consent_flow w with
             | Raise e => (Raise e, w)
             | Ok creds' =>
                 match write_token creds' w with
                 | (Ok _, w) => (build w, w)
                 | (Raise e, w) => (Raise e, w)
                 end
             end
    end in
  match attempt with
  | (Raise e, w) => (Raise (authentication_failed (str_exn e)), w)
  | ok => ok
  end.

(** [create_event(service, event_name, start_time, end_time)] with the
    default time zone.  The [os.remove] of line 74 runs inside the handler:
    what it raises replaces the exception of line 76. *)
Definition create_event (event_name : string) (start_time end_time : datetime)
    (w : World) : res string * World :=
  let time_zone := "Asia/Kolkata" in
  let event := mk_event event_name (isoformat start_time) time_zone
                        (isoformat end_time) time_zone in
  let w := record_call (Insert event) w in
  match execute w event with
  | Ok _ =>
      (Ok ("Event " ++ String PyStr.dquote event_name ++
           String PyStr.dquote " created successfully!"), w)
  | Raise e =>
      let error_msg := "Failed to create event: " ++ str_exn e in
      if PyStr.contains "invalid_grant" (str_exn e)
      then
        let error_msg' := error_msg ++ String PyStr.newline
                            "Please restart the application to re-authenticate." in
        match token_pickle w with
        | Some _ =>
            match remove_token w with
            | (Ok _, w) => (Raise (Exception error_msg'), w)
            | (Raise e', w) => (Raise e', w)
            end
        | None => (Raise (Exception error_msg'), w)
        end
      else (Raise (Exception error_msg), w)
  end.

(** ** The conversation *)

Definition Turn : Type := string * string.
Definition History : Type := list Turn.

Definition User (msg : string) : Turn := ("User", msg).
Definition Bot (msg : string) : Turn := ("Bot", msg).

Definition user_messages (history : History) : list string :=
  map snd (filter (fun t => String.eqb (fst t) "User") history).

(** [get_conversation_stage(history)] *)
Definition get_conversation_stage (history : History) : nat :=
  match user_messages history with
  | [] => 0%nat
  | _ => List.length (user_messages history)
  end.

(** How a call ends: it returns the list, or it raises and leaves the list
    as it then is. *)
Inductive outcome : Type :=
| Returned (history : History)
| Raised (e : exn) (history : History).

(** The list after the call, however the call ends. *)
Definition final_history (o : outcome) : History :=
  match o with Returned h | Raised _ h => h end.

Definition reset_keywords : list string := ["restart"; "start over"; "reset"].

Definition mem (s : string) (l : list string) : bool := existsb (String.eqb s) l.

(** [history.pop()]; the list is never empty where the code pops it. *)
Definition pop (history : History) : History := removelast history.

(** [l[i]] *)
Definition index (l : list string) (i : nat) : res string :=
  match nth_error l i with
  | Some x => Ok x
  | None => Raise (IndexError "list index out of range")
  end.

Definition restarted : History :=
  [Bot "Conversation restarted. Hi! How may I assist you?"].

(** The list that [reset_conversation] of the interface starts from. *)
Definition greeting : History := [Bot "Hi! How may I assist you?"].

(** The outer [try] body of stage 5 up to the gateway call. *)
Definition booking_details (history : History) (end_time_str : string)
  : res (string * datetime * datetime) :=
  event_name <- index (user_messages history) 1 ;;
  date_str <- index (user_messages history) 2 ;;
  start_time_str <- index (user_messages history) 3 ;;
  start_time <- parse_date_time date_str start_time_str ;;
  end_time <- parse_date_time date_str end_time_str ;;
  if PyDatetime.le end_time start_time
  then Raise (ValueError "End time must be after start time")
  else Ok (event_name, start_time, end_time).

(** The inner [try] body of stage 5. *)
Definition book (event_name : string) (start_time end_time : datetime)
    (w : World) : res string * World :=
  match authenticate_google w with
  | (Ok _, w) => create_event event_name start_time end_time w
  | (Raise e, w) => (Raise e, w)
  end.

(** The stage-3 test on the date. *)
Definition date_format_ok (date_str : string) : bool :=
  let date_parts := PyStr.split "-" date_str in
  negb (negb (Nat.eqb (List.length date_parts) 3)
        || negb (forallb PyStr.isdigit date_parts)).

(** [history.append(turn)] *)
Definition append (history : History) (turn : Turn) : History :=
  (history ++ [turn])%list.

(** [conversational_flow(history, user_input)] *)
Definition conversational_flow (history : History) (user_input : string)
    (w : World) : outcome * World :=
  if String.eqb user_input "" then (Returned history, w)
  else if mem (PyStr.lower user_input) reset_keywords
  then (Returned restarted, w)
  else
    let history := append history (User user_input) in
    let stage := get_conversation_stage history in
    if Nat.eqb stage 1 then
      if PyStr.contains "appointment" (PyStr.lower user_input)
         || PyStr.contains "book" (PyStr.lower user_input)
      then (Returned (append history (Bot "What is the purpose of the appointment?")), w)
      else (Returned (append (pop history)
              (Bot "I can help you book an appointment. Please say 'Book an appointment' to start.")),
            w)
    else if Nat.eqb stage 2 then
      (Returned (append history
         (Bot ("Great! You want to create an event for '" ++ user_input ++
               "'. What is the date? (DD-MM-YYYY)"))), w)
    else if Nat.eqb stage 3 then
      if date_format_ok user_input
      then (Returned (append history (Bot "What is the start time? (HH:MM AM/PM)")), w)
      else (Returned (append (pop history)
              (Bot ("Invalid date format: " ++ "Date must be in DD-MM-YYYY format" ++
                    ". Please enter the date in DD-MM-YYYY format."))), w)
    else if Nat.eqb stage 4 then
      match strptime (PyStr.upper (PyStr.strip user_input)) with
      | Ok _ => (Returned (append history (Bot "What is the end time? (HH:MM AM/PM)")), w)
      | Raise (ValueError _) =>
          (Returned (append (pop history)
             (Bot "Invalid time format. Please enter the time in HH:MM AM/PM format (e.g., 02:30 PM).")),
           w)
      | Raise e => (Raised e history, w)
      end
    else if Nat.eqb stage 5 then
      match booking_details history user_input with
      | Ok (event_name, start_time, end_time) =>
          match book event_name start_time end_time w with
          | (Ok result, w) =>
              (Returned (append (append history (Bot result))
                 (Bot "Do you need to book any other appointments? (yes/no)")), w)
          | (Raise e, w) => (Returned (append history (Bot ("Error: " ++ str_exn e))), w)
          end
      | Raise (ValueError m) =>
          (Returned (append (pop history)
             (Bot ("Invalid time: " ++ m ++
                   ". Please enter a valid end time in HH:MM AM/PM format."))), w)
      | Raise e => (Raised e history, w)
      end
    else if Nat.eqb stage 6 then
      if String.eqb (PyStr.lower user_input) "yes" then (Returned greeting, w)
      else if String.eqb (PyStr.lower user_input) "no"
      then (Returned (append history (Bot "Thank you! Have a nice day.")), w)
      else (Returned (append (pop history) (Bot "Please answer with 'yes' or 'no'.")), w)
    else (Returned history, w).

(** One input after another, as the interface feeds them; the run stops at a
    call that raises. *)
Fixpoint run (history : History) (inputs : list string) (w : World)
  : outcome * World :=
  match inputs with
  | [] => (Returned history, w)
  | user_input :: rest =>
      match conversational_flow history user_input w with
      | (Returned history', w') => run history' rest w'
      | raised => raised
      end
  end.

(** ** Sample worlds and transcripts *)

Definition fresh_creds : Credentials := mk_creds true false true.

(** A configured installation where every remote call succeeds. *)
Definition world_ok : World :=
  mk_world (Some (Pickled (Some fresh_creds))) true (fun c => Ok c)
           (Ok fresh_creds) (Ok tt) (fun _ => Ok tt)
           (fun _ => Ok tt) 0 Written [].

(** No [credentials.json] and no cached token. *)
Definition world_unconfigured : World :=
  mk_world None false (fun c => Ok c) (Ok fresh_creds) (Ok tt) (fun _ => Ok tt)
           (fun _ => Ok tt) 0 Written [].

(** The calendar service rejects the insertion. *)
Definition world_insert_fails : World :=
  mk_world (Some (Pickled (Some fresh_creds))) true (fun c => Ok c)
           (Ok fresh_creds) (Ok tt)
           (fun _ => Raise (Exception "quota exceeded"))
           (fun _ => Ok tt) 0 Written [].

(** Two answers given, the date awaited. *)
Definition awaiting_date : History :=
  [Bot "Hi! How may I assist you?";
   User "book an appointment";
   Bot "What is the purpose of the appointment?";
   User "Dentist";
   Bot "Great! You want to create an event for 'Dentist'. What is the date? (DD-MM-YYYY)"].

(** A booking in progress: four answers given, the end time awaited. *)
Definition awaiting_end_time : History :=
  [Bot "Hi! How may I assist you?";
   User "book an appointment";
   Bot "What is the purpose of the appointment?";
   User "Dentist";
   Bot "Great! You want to create an event for 'Dentist'. What is the date? (DD-MM-YYYY)";
   User "15-06-2024";
   Bot "What is the start time? (HH:MM AM/PM)";
   User "02:00 PM";
   Bot "What is the end time? (HH:MM AM/PM)"].

(** The booking made: five answers given, yes or no awaited. *)
Definition awaiting_yes_no : History :=
  (awaiting_end_time ++
   [User "03:00 PM";
    Bot ("Event " ++ String PyStr.dquote "Dentist" ++
         String PyStr.dquote " created successfully!");
    Bot "Do you need to book any other appointments? (yes/no)"])%list.

(** The conversation closed by the answer no. *)
Definition closed_by_no : History :=
  (awaiting_yes_no ++ [User "no"; Bot "Thank you! Have a nice day."])%list.

(** As [awaiting_end_time], with a year that does not fit a C [int]. *)
Definition awaiting_end_time_far_year : History :=
  [Bot "Hi! How may I assist you?";
   User "book an appointment";
   Bot "What is the purpose of the appointment?";
   User "Dentist";
   Bot "Great! You want to create an event for 'Dentist'. What is the date? (DD-MM-YYYY)";
   User "01-01-99999999999";
   Bot "What is the start time? (HH:MM AM/PM)";
   User "02:00 PM";
   Bot "What is the end time? (HH:MM AM/PM)"].

(** A year of 4301 digits, one more than [int] converts. *)
Definition long_year : string := string_of_list_ascii (repeat "1"%char 4301).

(** As [awaiting_end_time], with the 31st of February. *)
Definition awaiting_end_time_feb_31 : History :=
  [Bot "Hi! How may I assist you?";
   User "book an appointment";
   Bot "What is the purpose of the appointment?";
   User "Dentist";
   Bot "Great! You want to create an event for 'Dentist'. What is the date? (DD-MM-YYYY)";
   User "31-02-2024";
   Bot "What is the start time? (HH:MM AM/PM)";
   User "02:00 PM";
   Bot "What is the end time? (HH:MM AM/PM)"].

(** ** Notions of the specification *)

(** The number of turns whose speaker is the user. *)
Definition count_user_turns (history : History) : nat :=
  count_occ string_dec (map fst history) "User".

(** The number of Bot turns. *)
Definition count_bot_turns (history : History) : nat :=
  count_occ string_dec (map fst history) "Bot".

Definition is_reset (user_input : string) : bool :=
  mem (PyStr.lower user_input) reset_keywords.

(** A time that the format [%I:%M %p] accepts once trimmed and put in upper
    case. *)
Definition time_ok (time_str : string) : bool :=
  match strptime (PyStr.upper (PyStr.strip time_str)) with
  | Ok _ => true
  | Raise _ => false
  end.

(** The date splits into exactly three hyphen-delimited integer tokens. *)
Definition three_int_tokens (date_str : string) : bool :=
  match PyStr.split "-" date_str with
  | [p1; p2; p3] =>
      PyInt.is_int_literal p1 && PyInt.is_int_literal p2 && PyInt.is_int_literal p3
  | _ => false
  end.

(** The day, month and year that [int] reads from a date. *)
Definition date_fields (date_str : string) : option (Z * Z * Z) :=
  match PyStr.split "-" date_str with
  | [p1; p2; p3] =>
      match PyInt.int p1, PyInt.int p2, PyInt.int p3 with
      | Ok d, Ok m, Ok y => Some (d, m, y)
      | _, _, _ => None
      end
  | _ => None
  end.

Definition fits_c_int (z : Z) : bool := (INT_MIN <=? z) && (z <=? INT_MAX).

(** A date that passes the stage-3 test, whose fields fit a C [int], and
    that is not a date of the calendar. *)
Definition off_calendar (date_str : string) : bool :=
  date_format_ok date_str &&
  match date_fields date_str with
  | Some (d, m, y) =>
      fits_c_int d && fits_c_int m && fits_c_int y && negb (valid_date y m d)
  | None => false
  end.

(** The credential that the token file offers: the pickled one when it is
    valid, the refreshed one when it has expired, has a refresh token and the
    refresh succeeds. *)
Definition usable_token (w : World) : option Credentials :=
  match token_pickle w with
  | Some (Pickled (Some creds)) =>
      if valid creds then Some creds
      else if expired creds && refresh_token creds
      then match refresh w creds with
           | Ok creds' => Some creds'
           | Raise _ => None
           end
      else None
  | _ => None
  end.

(** The world with another token file and another count of removals. *)
Definition touched (t : option token_file) (n : nat) (w : World) : World :=
  mk_world t (credentials_json w) (refresh w) (consent_flow w) (build w)
           (execute w) (os_remove w) n (token_write w) (gateway_calls w).

(** A date whose day is a superscript two (character 178 of Latin-1). *)
Definition superscript_date : string := String "178" "-06-2024".


(** The gateway call of stage 5 fails: in authentication, or in the creation
    of the event. *)
Inductive gateway_fails (event_name : string) (start_time end_time : datetime)
    (w : World) : exn -> World -> Prop :=
| authentication_raises e w1 :
    authenticate_google w = (Raise e, w1) ->
    gateway_fails event_name start_time end_time w e w1
| creation_raises w1 e w2 :
    authenticate_google w = (Ok tt, w1) ->
    create_event event_name start_time end_time w1 = (Raise e, w2) ->
    gateway_fails event_name start_time end_time w e w2.

(** The rejecting transitions: the input that the stage refuses. *)
Inductive rejected (T : History) (user_input : string) : Prop :=
| invalid_intent :
    count_user_turns T = 0%nat ->
    PyStr.contains "appointment" (PyStr.lower user_input) = false ->
    PyStr.contains "book" (PyStr.lower user_input) = false ->
    rejected T user_input
| invalid_date :
    count_user_turns T = 2%nat ->
    date_format_ok user_input = false ->
    rejected T user_input
| invalid_time :
    count_user_turns T = 3%nat ->
    time_ok user_input = false ->
    rejected T user_input
| start_does_not_parse u1 name date_str start_str m :
    user_messages T = [u1; name; date_str; start_str] ->
    parse_date_time date_str start_str = Raise (ValueError m) ->
    rejected T user_input
| end_does_not_parse u1 name date_str start_str start_time m :
    user_messages T = [u1; name; date_str; start_str] ->
    parse_date_time date_str start_str = Ok start_time ->
    parse_date_time date_str user_input = Raise (ValueError m) ->
    rejected T user_input
| end_not_after_start u1 name date_str start_str start_time end_time :
    user_messages T = [u1; name; date_str; start_str] ->
    parse_date_time date_str start_str = Ok start_time ->
    parse_date_time date_str user_input = Ok end_time ->
    PyDatetime.le end_time start_time = true ->
    rejected T user_input
| neither_yes_nor_no :
    count_user_turns T = 5%nat ->
    PyStr.lower user_input <> "yes" ->
    PyStr.lower user_input <> "no" ->
    rejected T user_input.

Definition date_format_message : string := "Date must be in DD-MM-YYYY format".

Definition credentials_file_not_found : string :=
  "Authentication failed: credentials.json file not found. Please download it from Google Cloud Console.".

(** A transcript held at a date: the date is its third User turn, and a
    fourth User turn, when there is one, is a well-formed time. *)
Definition held_at (date_str : string) (T : History) : Prop :=
  exists u1 name,
    user_messages T = [u1; name; date_str] \/
    exists start_str,
      user_messages T = [u1; name; date_str; start_str] /\ time_ok start_str = true.

Definition end_time_refused (msg : string) : Turn :=
  Bot ("Invalid time: " ++ msg ++ ". Please enter a valid end time in HH:MM AM/PM format.").

(** The transcripts that the conversation produces: the interface starts
    from the empty list or from the greeting and passes the list of one call
    to the next. *)
Inductive produced : History -> Prop :=
| produced_empty : produced []
| produced_greeting : produced greeting
| produced_call T user_input w :
    produced T ->
    produced (final_history (fst (conversational_flow T user_input w))).

(** What the stages have checked of the answers kept so far: the date, the
    start time, and, once an end time is kept, that date and start time did
    not fail to parse. *)
Definition checked (answers : list string) : Prop :=
  (forall d, nth_error answers 2 = Some d -> date_format_ok d = true) /\
  (forall s, nth_error answers 3 = Some s -> time_ok s = true) /\
  (forall d s m,
      nth_error answers 2 = Some d -> nth_error answers 3 = Some s ->
      (5 <= List.length answers)%nat ->
      parse_date_time d s <> Raise (ValueError m)).

(** What the stage has checked of an answer that it keeps. *)
Definition kept_ok (answers : list string) (user_input : string) : Prop :=
  (List.length answers = 2%nat -> date_format_ok user_input = true) /\
  (List.length answers = 3%nat -> time_ok user_input = true) /\
  (List.length answers = 4%nat ->
   forall d s m,
     nth_error answers 2 = Some d -> nth_error answers 3 = Some s ->
     parse_date_time d s <> Raise (ValueError m)).

(** ** The interface *)

(** A row of the chat display, [[message, None]] or [[None, message]]: the
    bubble of the user and the bubble of the bot. *)
Definition Row : Type := (option string * option string)%type.

(** [display_chat(history)] *)
Definition display_chat (history : History) : list Row :=
  map (fun '(role, message) =>
         if String.eqb role "User" then (Some message, None)
         else (None, Some message))
      history.

(** [reset_conversation()]: the display and the state. *)
Definition reset_conversation : list Row * History :=
  let history := [("Bot", "Hi! How may I assist you?")] in
  (display_chat history, history).

(** What [handle_input] hands back: the display, the state and the text of
    the input box; or the exception of [conversational_flow], with the list
    as the call left it. *)
Inductive handled : Type :=
| Shown (chat : list Row) (history : History) (textbox : string)
| Failed (e : exn) (history : History).

(** [handle_input(user_input, history)] *)
Definition handle_input (user_input : string) (history : History) (w : World)
  : handled * World :=
  if String.eqb (PyStr.strip user_input) ""
  then (Shown (display_chat history) history "", w)
  else match conversational_flow history user_input w with
       | (Returned history', w') => (Shown (display_chat history') history' "", w')
       | (Raised e history', w') => (Failed e history', w')
       end.

(** ** Further notions *)

(** The stage-1 test: the input names a booking. *)
Definition names_booking (user_input : string) : bool :=
  PyStr.contains "appointment" (PyStr.lower user_input)
  || PyStr.contains "book" (PyStr.lower user_input).

(** The two speakers. *)
Definition known_role (t : Turn) : Prop := fst t = "User" \/ fst t = "Bot".

(** The minute of the day of a timestamp. *)
Definition minute_of_day (t : datetime) : Z := 60 * hour t + minute t.

(** The body that [create_event] sends (lines 56-66). *)
Definition event_body (event_name : string) (start_time end_time : datetime) : Event :=
  mk_event event_name (isoformat start_time) "Asia/Kolkata"
           (isoformat end_time) "Asia/Kolkata".

(** There is a cached credential that [authenticate_google] can use: valid,
    or expired and refreshed. *)
Definition usable_cache (w : World) : bool :=
  match usable_token w with Some _ => true | None => false end.

(** The token file, when there is one, can be removed: by the [os.remove] of
    the last handler for a file that cannot be loaded; for a loaded file by
    the [os.remove] inside the [try] or, when that one fails, by the one of
    the handler. *)
Definition cache_cleared (w : World) : bool :=
  let removed (k : nat) : bool :=
    match os_remove w k with Ok _ => true | Raise _ => false end in
  match token_pickle w with
  | None => true
  | Some Unreadable => removed (removals w)
  | Some (Pickled _) => removed (removals w) || removed (S (removals w))
  end.

(** The token file is loaded, no credential in it can be used, and it is
    read-only: no removal succeeds. *)
Definition world_token_is_locked : World :=
  mk_world (Some (Pickled None)) true (fun c => Ok c) (Ok fresh_creds) (Ok tt)
           (fun _ => Ok tt)
           (fun _ => Raise (Exception "[Errno 13] Permission denied: 'token.pickle'"))
           0 Written [].

(** The insertion fails with invalid_grant and the token file cannot be
    removed. *)
Definition world_invalid_grant_locked : World :=
  mk_world (Some (Pickled (Some fresh_creds))) true (fun c => Ok c)
           (Ok fresh_creds) (Ok tt)
           (fun _ => Raise (Exception "invalid_grant: Token has been expired or revoked."))
           (fun _ => Raise (Exception "[Errno 13] Permission denied: 'token.pickle'"))
           0 Written [].

(** The turns that a call adds: at most one User turn, the input, then at
    most two Bot turns. *)
Inductive added_turns (user_input : string) : list Turn -> Prop :=
| added_nothing : added_turns user_input []
| added_reply msg : added_turns user_input [Bot msg]
| added_input : added_turns user_input [User user_input]
| added_input_reply msg : added_turns user_input [User user_input; Bot msg]
| added_input_replies msg1 msg2 :
    added_turns user_input [User user_input; Bot msg1; Bot msg2].

(** A cached credential that has expired and can be refreshed. *)
Definition stale_creds : Credentials := mk_creds false true true.

(** The cache holds [stale_creds]; the refresh and every other remote call
    succeed. *)
Definition world_stale_token : World :=
  mk_world (Some (Pickled (Some stale_creds))) true
           (fun c => Ok (mk_creds true false true))
           (Ok fresh_creds) (Ok tt) (fun _ => Ok tt)
           (fun _ => Ok tt) 0 Written [].

(** The calendar service answers that the grant is no longer valid. *)
Definition world_invalid_grant : World :=
  mk_world (Some (Pickled (Some fresh_creds))) true (fun c => Ok c)
           (Ok fresh_creds) (Ok tt)
           (fun _ => Raise (Exception "invalid_grant: Token has been expired or revoked."))
           (fun _ => Ok tt) 0 Written [].

(** A booking whose start time is late in the evening. *)
Definition awaiting_end_time_late : History :=
  [Bot "Hi! How may I assist you?";
   User "book an appointment";
   Bot "What is the purpose of the appointment?";
   User "Night shift";
   Bot "Great! You want to create an event for 'Night shift'. What is the date? (DD-MM-YYYY)";
   User "15-06-2024";
   Bot "What is the start time? (HH:MM AM/PM)";
   User "11:00 PM";
   Bot "What is the end time? (HH:MM AM/PM)"].

(** ** Lists and transcripts *)

Lemma user_messages_app (h1 h2 : History) :
  user_messages (h1 ++ h2)%list = (user_messages h1 ++ user_messages h2)%list.
Proof.
  unfold user_messages. now rewrite filter_app, map_app.
Qed.

Lemma user_messages_append_User (h : History) (msg : string) :
  user_messages (append h (User msg)) = (user_messages h ++ [msg])%list.
Proof.
  unfold append. now rewrite user_messages_app.
Qed.

Lemma user_messages_append_Bot (h : History) (msg : string) :
  user_messages (append h (Bot msg)) = user_messages h.
Proof.
  unfold append. rewrite user_messages_app. cbn. apply app_nil_r.
Qed.

Lemma pop_append (h : History) (t : Turn) : pop (append h t) = h.
Proof.
  unfold pop, append. apply removelast_last.
Qed.

Lemma stage_is_length (h : History) :
  get_conversation_stage h = List.length (user_messages h).
Proof.
  unfold get_conversation_stage. now destruct (user_messages h).
Qed.

Lemma count_is_length (h : History) :
  count_user_turns h = List.length (user_messages h).
Proof.
  unfold count_user_turns, user_messages.
  induction h as [|[role msg] h IH]; [reflexivity|].
  cbn [map fst filter count_occ].
  destruct (string_dec role "User") as [->|Hne].
  - rewrite String.eqb_refl. cbn [map List.length]. now rewrite IH.
  - destruct (string_dec "User" role) as [E|_]; [now subst|].
    apply String.eqb_neq in Hne. now rewrite Hne.
Qed.

Lemma stage_append_User (h : History) (msg : string) :
  get_conversation_stage (append h (User msg)) = S (count_user_turns h).
Proof.
  rewrite stage_is_length, user_messages_append_User, length_app, count_is_length.
  cbn. lia.
Qed.

Lemma count_append_Bot (h : History) (msg : string) :
  count_user_turns (append h (Bot msg)) = count_user_turns h.
Proof.
  now rewrite !count_is_length, user_messages_append_Bot.
Qed.

Lemma count_append_User (h : History) (msg : string) :
  count_user_turns (append h (User msg)) = S (count_user_turns h).
Proof.
  rewrite !count_is_length, user_messages_append_User, length_app. cbn. lia.
Qed.

(** ** The dispatch of [conversational_flow], stage by stage *)

Section Dispatch.
Variables (T : History) (user_input : string) (w : World).
Hypothesis not_empty : user_input <> "".
Hypothesis not_reset : is_reset user_input = false.

Local Abbreviation history := (append T (User user_input)).

Ltac enter_stage H :=
  unfold conversational_flow;
  rewrite (proj2 (String.eqb_neq _ _) not_empty);
  unfold is_reset in not_reset; rewrite not_reset;
  cbv zeta; rewrite stage_append_User, H; cbn [Nat.eqb];
  rewrite ?pop_append.

Lemma flow_stage_1 :
  count_user_turns T = 0%nat ->
  conversational_flow T user_input w =
    if PyStr.contains "appointment" (PyStr.lower user_input)
       || PyStr.contains "book" (PyStr.lower user_input)
    then (Returned (append history (Bot "What is the purpose of the appointment?")), w)
    else (Returned (append T
            (Bot "I can help you book an appointment. Please say 'Book an appointment' to start.")),
          w).
Proof. intros H. enter_stage H. reflexivity. Qed.

Lemma flow_stage_2 :
  count_user_turns T = 1%nat ->
  conversational_flow T user_input w =
    (Returned (append history
       (Bot ("Great! You want to create an event for '" ++ user_input ++
             "'. What is the date? (DD-MM-YYYY)"))), w).
Proof. intros H. enter_stage H. reflexivity. Qed.

Lemma flow_stage_3 :
  count_user_turns T = 2%nat ->
  conversational_flow T user_input w =
    if date_format_ok user_input
    then (Returned (append history (Bot "What is the start time? (HH:MM AM/PM)")), w)
    else (Returned (append T
            (Bot "Invalid date format: Date must be in DD-MM-YYYY format. Please enter the date in DD-MM-YYYY format.")),
          w).
Proof. intros H. enter_stage H. reflexivity. Qed.

Lemma flow_stage_4 :
  count_user_turns T = 3%nat ->
  conversational_flow T user_input w =
    match strptime (PyStr.upper (PyStr.strip user_input)) with
    | Ok _ => (Returned (append history (Bot "What is the end time? (HH:MM AM/PM)")), w)
    | Raise (ValueError _) =>
        (Returned (append T
           (Bot "Invalid time format. Please enter the time in HH:MM AM/PM format (e.g., 02:30 PM).")),
         w)
    | Raise e => (Raised e history, w)
    end.
Proof. intros H. enter_stage H. reflexivity. Qed.

Lemma flow_stage_5 :
  count_user_turns T = 4%nat ->
  conversational_flow T user_input w =
    match booking_details history user_input with
    | Ok (event_name, start_time, end_time) =>
        match book event_name start_time end_time w with
        | (Ok result, w') =>
            (Returned (append (append history (Bot result))
               (Bot "Do you need to book any other appointments? (yes/no)")), w')
        | (Raise e, w') =>
            (Returned (append history (Bot ("Error: " ++ str_exn e))), w')
        end
    | Raise (ValueError m) =>
        (Returned (append T
           (Bot ("Invalid time: " ++ m ++
                 ". Please enter a valid end time in HH:MM AM/PM format."))), w)
    | Raise e => (Raised e history, w)
    end.
Proof. intros H. enter_stage H. reflexivity. Qed.

Lemma flow_stage_6 :
  count_user_turns T = 5%nat ->
  conversational_flow T user_input w =
    if String.eqb (PyStr.lower user_input) "yes" then (Returned greeting, w)
    else if String.eqb (PyStr.lower user_input) "no"
    then (Returned (append history (Bot "Thank you! Have a nice day.")), w)
    else (Returned (append T (Bot "Please answer with 'yes' or 'no'.")), w).
Proof. intros H. enter_stage H. reflexivity. Qed.

Lemma flow_beyond_stage_6 :
  (6 <= count_user_turns T)%nat ->
  conversational_flow T user_input w = (Returned history, w).
Proof.
  intros H.
  unfold conversational_flow.
  rewrite (proj2 (String.eqb_neq _ _) not_empty).
  unfold is_reset in not_reset. rewrite not_reset.
  cbv zeta. rewrite stage_append_User.
  generalize dependent (count_user_turns T). intros n H.
  do 6 (destruct n as [|n]; [lia|]); cbn [Nat.eqb].
  reflexivity.
Qed.

End Dispatch.

(** ** The restart command *)

Lemma lower_empty_is_no_keyword (user_input : string) :
  In (PyStr.lower user_input) reset_keywords -> user_input <> "".
Proof.
  intros Hin ->. cbn in Hin. intuition discriminate.
Qed.

Lemma is_reset_iff (user_input : string) :
  is_reset user_input = true <-> In (PyStr.lower user_input) reset_keywords.
Proof.
  unfold is_reset, mem. rewrite existsb_exists. split.
  - intros (k & Hk & E). apply String.eqb_eq in E. now subst.
  - intros Hin. exists (PyStr.lower user_input). split; [exact Hin|apply String.eqb_refl].
Qed.

(** A restart command gives the restart greeting. *)
Lemma reset_returns_restarted (T : History) (user_input : string) (w : World) :
  is_reset user_input = true ->
  conversational_flow T user_input w = (Returned restarted, w).
Proof.
  intros Hr.
  assert (Hne : user_input <> "").
  { apply lower_empty_is_no_keyword. now apply is_reset_iff. }
  unfold conversational_flow.
  rewrite (proj2 (String.eqb_neq _ _) Hne).
  unfold is_reset in Hr. now rewrite Hr.
Qed.

(** C1. Whatever the transcript holds, an input whose lower-case form is
    restart, start over or reset makes [conversational_flow] return the
    transcript of exactly one Bot turn, the restart greeting. *)
Theorem reset_keyword_restarts (T : History) (user_input : string) (w : World) :
  In (PyStr.lower user_input) reset_keywords ->
  conversational_flow T user_input w =
    (Returned [("Bot", "Conversation restarted. Hi! How may I assist you?")], w).
Proof.
  intros Hin.
  pose proof (lower_empty_is_no_keyword _ Hin) as Hne.
  apply is_reset_iff in Hin.
  unfold conversational_flow.
  rewrite (proj2 (String.eqb_neq _ _) Hne).
  unfold is_reset in Hin. now rewrite Hin.
Qed.

Lemma reset_keyword_restarts_witness :
  In (PyStr.lower "Start Over") reset_keywords /\
  conversational_flow awaiting_end_time "Start Over" world_ok =
    (Returned [("Bot", "Conversation restarted. Hi! How may I assist you?")], world_ok).
Proof.
  split.
  - cbn. right. left. reflexivity.
  - apply (reset_keyword_restarts awaiting_end_time "Start Over" world_ok).
    cbn. right. left. reflexivity.
Defined.

(** ** Stage and rollback *)

Lemma strptime_raises_ValueError (s : string) (e : exn) :
  strptime s = Raise e -> exists m, e = ValueError m.
Proof.
  unfold strptime. intros H.
  destruct (format_regex s) as [[[[i m] pm] rest]|].
  - destruct rest; [discriminate|]. injection H as <-. eauto.
  - injection H as <-. eauto.
Qed.

Lemma booking_details_at_stage_5 (T : History) (user_input : string)
    (u1 name date_str start_str : string) :
  user_messages T = [u1; name; date_str; start_str] ->
  booking_details (append T (User user_input)) user_input =
    (start_time <- parse_date_time date_str start_str ;;
     end_time <- parse_date_time date_str user_input ;;
     if PyDatetime.le end_time start_time
     then Raise (ValueError "End time must be after start time")
     else Ok (name, start_time, end_time)).
Proof.
  intros H. unfold booking_details.
  rewrite user_messages_append_User, H. reflexivity.
Qed.

Lemma four_user_messages (T : History) (u1 name date_str start_str : string) :
  user_messages T = [u1; name; date_str; start_str] -> count_user_turns T = 4%nat.
Proof.
  intros H. now rewrite count_is_length, H.
Qed.

(** What [conversational_flow] does with a rejected input: the input is
    dropped and a Bot turn is added. *)
Lemma rejected_is_rolled_back (T : History) (user_input : string) (w : World) :
  user_input <> "" -> is_reset user_input = false -> rejected T user_input ->
  exists msg, conversational_flow T user_input w = (Returned (append T (Bot msg)), w).
Proof.
  intros Hne Hnr [H0 Ha Hb | H2 Hd | H3 Ht
                 | u1 name d s m Hu Hs
                 | u1 name d s st m Hu Hs He
                 | u1 name d s st en Hu Hs He Hle
                 | H5 Hy Hn].
  - rewrite flow_stage_1, Ha, Hb by assumption. cbn [orb]. eauto.
  - rewrite flow_stage_3, Hd by assumption. eauto.
  - rewrite flow_stage_4 by assumption. unfold time_ok in Ht.
    destruct (strptime _) as [t|e] eqn:E; [discriminate|].
    destruct (strptime_raises_ValueError _ _ E) as [m ->]. eauto.
  - rewrite flow_stage_5 by eauto using four_user_messages.
    rewrite (booking_details_at_stage_5 _ _ _ _ _ _ Hu), Hs. cbn. eauto.
  - rewrite flow_stage_5 by eauto using four_user_messages.
    rewrite (booking_details_at_stage_5 _ _ _ _ _ _ Hu), Hs. cbn [bind].
    rewrite He. cbn. eauto.
  - rewrite flow_stage_5 by eauto using four_user_messages.
    rewrite (booking_details_at_stage_5 _ _ _ _ _ _ Hu), Hs. cbn [bind].
    rewrite He. cbn [bind]. rewrite Hle. eauto.
  - rewrite flow_stage_6 by assumption.
    apply String.eqb_neq in Hy, Hn. rewrite Hy, Hn. eauto.
Qed.

(** X22. The stage of a transcript is its number of User turns, 0 when it
    has none; and a transition that [rejected] lists (an input that names no
    booking at stage 1, a malformed date at stage 3, a malformed time at stage
    4, at stage 5 a start or an end that [parse_date_time] refuses with a
    [ValueError] or an end that is not after the start, an answer that is
    neither yes nor no at stage 6) drops the input and adds one Bot turn,
    which leaves the number of User turns, and so the stage, as it was before
    the input.  A parse failure of another class is not among them. *)
Theorem stage_counts_user_turns_and_rejection_keeps_it :
  (forall h : History, get_conversation_stage h = count_user_turns h) /\
  (forall h : History,
      (forall t, In t h -> fst t <> "User") -> get_conversation_stage h = 0%nat) /\
  (forall (T : History) (user_input : string) (w : World),
      user_input <> "" -> is_reset user_input = false -> rejected T user_input ->
      exists msg,
        conversational_flow T user_input w = (Returned (T ++ [("Bot", msg)])%list, w) /\
        count_user_turns (T ++ [("Bot", msg)])%list = count_user_turns T /\
        get_conversation_stage (T ++ [("Bot", msg)])%list = get_conversation_stage T).
Proof.
  assert (Hstage : forall h, get_conversation_stage h = count_user_turns h).
  { intros h. now rewrite stage_is_length, count_is_length. }
  split; [exact Hstage|]. split.
  - intros h Hno. rewrite stage_is_length. unfold user_messages.
    induction h as [|[role msg] h IH]; [reflexivity|].
    cbn [filter fst].
    assert (Hrole : role <> "User") by (apply (Hno (role, msg)); now left).
    apply String.eqb_neq in Hrole. rewrite Hrole.
    apply IH. intros t Ht. apply Hno. now right.
  - intros T user_input w Hne Hnr Hrej.
    destruct (rejected_is_rolled_back T user_input w Hne Hnr Hrej) as [msg E].
    exists msg. split; [exact E|].
    rewrite !Hstage. split; apply (count_append_Bot T msg).
Qed.

Lemma stage_counts_user_turns_and_rejection_keeps_it_witness :
  exists msg,
    conversational_flow awaiting_date "15/06/2024" world_ok =
      (Returned (awaiting_date ++ [("Bot", msg)])%list, world_ok) /\
    count_user_turns (awaiting_date ++ [("Bot", msg)])%list =
      count_user_turns awaiting_date /\
    get_conversation_stage (awaiting_date ++ [("Bot", msg)])%list =
      get_conversation_stage awaiting_date.
Proof.
  apply (proj2 (proj2 stage_counts_user_turns_and_rejection_keeps_it)
           awaiting_date "15/06/2024" world_ok).
  - discriminate.
  - reflexivity.
  - apply invalid_date; reflexivity.
Defined.

(** C2, at a parse failure of stage 5 that is not rolled back.  The date
    01-01-99999999999 passes the stage-3 test; at stage 5 [parse_date_time]
    fails on it with the [OverflowError] of [datetime], which is no
    [ValueError]: the handler of stage 5, which pops the end time of every
    other parse failure, does not catch it.  The call raises, the end time
    stays in the list, and the transcript goes from four User turns to five,
    from stage 4 to stage 5, with no Bot turn added.  The specification has
    the stage after a rejected input equal to the stage before it. *)
Theorem overflowing_year_is_rejected_without_rollback :
  fst (run greeting
         ["book an appointment"; "Dentist"; "01-01-99999999999"; "02:00 PM"]
         world_ok) = Returned awaiting_end_time_far_year /\
  count_user_turns awaiting_end_time_far_year = 4%nat /\
  get_conversation_stage awaiting_end_time_far_year = 4%nat /\
  "03:00 PM" <> "" /\ is_reset "03:00 PM" = false /\
  parse_date_time "01-01-99999999999" "02:00 PM" =
    Raise (OverflowError "signed integer is greater than maximum") /\
  (forall w : World,
      conversational_flow awaiting_end_time_far_year "03:00 PM" w =
        (Raised (OverflowError "signed integer is greater than maximum")
                (awaiting_end_time_far_year ++ [User "03:00 PM"])%list, w)) /\
  count_user_turns (awaiting_end_time_far_year ++ [User "03:00 PM"])%list = 5%nat /\
  get_conversation_stage (awaiting_end_time_far_year ++ [User "03:00 PM"])%list = 5%nat /\
  count_bot_turns (awaiting_end_time_far_year ++ [User "03:00 PM"])%list =
    count_bot_turns awaiting_end_time_far_year.
Proof.
  repeat split; try (vm_compute; reflexivity).
  discriminate.
Qed.

(** ** The parser *)

Lemma reraise_same {A : Type} (r : res A) :
  except_ValueError r (fun e => Raise (ValueError (str_exn e))) = r.
Proof.
  destruct r as [a|[m|m|m|m]]; reflexivity.
Qed.

(** [parse_date_time] without its outer handler, which raises again what it
    catches. *)
Lemma parse_date_time_eq (date_str time_str : string) :
  parse_date_time date_str time_str =
    match PyStr.split "-" date_str with
    | [p1; p2; p3] =>
        day <- PyInt.int p1 ;;
        month <- PyInt.int p2 ;;
        year <- PyInt.int p3 ;;
        time_obj <- except_ValueError
                      (strptime (PyStr.upper (PyStr.strip time_str)))
                      (fun _ => Raise (ValueError "Time must be in HH:MM AM/PM format")) ;;
        PyDatetime.new year month day (hour time_obj) (minute time_obj)
    | _ => Raise (ValueError "Date must be in DD-MM-YYYY format")
    end.
Proof.
  unfold parse_date_time. rewrite reraise_same.
  destruct (PyStr.split "-" date_str) as [|p1 [|p2 [|p3 [|p4 ps]]]]; try reflexivity.
  cbn [List.length Nat.eqb negb].
  destruct (PyInt.int p1); [|reflexivity]. cbn [bind].
  destruct (PyInt.int p2); [|reflexivity]. cbn [bind].
  destruct (PyInt.int p3); [|reflexivity]. cbn [bind].
  destruct (except_ValueError _ _); [|reflexivity]. cbn [bind].
  now destruct (PyDatetime.new _ _ _ _ _).
Qed.

Lemma as_c_int_Ok (z z' : Z) :
  as_c_int z = Ok z' -> z' = z /\ fits_c_int z = true.
Proof.
  unfold as_c_int, fits_c_int.
  destruct ((z >? LONG_MAX) || (z <? LONG_MIN)); [discriminate|].
  destruct (z >? INT_MAX) eqn:E2; [discriminate|].
  destruct (z <? INT_MIN) eqn:E3; [discriminate|].
  intros H. injection H as H. subst z'. split; [reflexivity|]. lia.
Qed.

Lemma as_c_int_fits (z : Z) : fits_c_int z = true -> as_c_int z = Ok z.
Proof.
  unfold as_c_int, fits_c_int. intros H.
  assert (E1 : (z >? LONG_MAX) || (z <? LONG_MIN) = false)
    by (unfold LONG_MAX, LONG_MIN, INT_MAX, INT_MIN in *; lia).
  assert (E2 : (z >? INT_MAX) = false) by lia.
  assert (E3 : (z <? INT_MIN) = false) by lia.
  now rewrite E1, E2, E3.
Qed.

Lemma check_date_args_Ok (y m d : Z) :
  check_date_args y m d = Ok tt <-> valid_date y m d = true.
Proof.
  unfold check_date_args, valid_date.
  destruct ((y <? 1) || (y >? 9999)) eqn:Ey;
    [split; [discriminate|lia]|].
  destruct ((m <? 1) || (m >? 12)) eqn:Em;
    [split; [discriminate|lia]|].
  destruct ((d <? 1) || (d >? days_in_month y m)) eqn:Ed;
    [split; [discriminate|lia]|].
  split; [lia|reflexivity].
Qed.

Lemma check_date_args_raises (y m d : Z) :
  valid_date y m d = false -> exists msg, check_date_args y m d = Raise (ValueError msg).
Proof.
  intros H. destruct (check_date_args y m d) as [[]|e] eqn:E.
  - apply check_date_args_Ok in E. congruence.
  - revert E. unfold check_date_args.
    repeat (destruct (_ || _); [intros [= <-]; eauto|]). discriminate.
Qed.

Lemma new_Ok (y m d h mi : Z) (t : datetime) :
  PyDatetime.new y m d h mi = Ok t ->
  t = mk_datetime y m d h mi /\ valid_date y m d = true.
Proof.
  unfold PyDatetime.new. intros H.
  destruct (as_c_int y) as [y'|] eqn:Ey; [|discriminate].
  destruct (as_c_int m) as [m'|] eqn:Em; [|discriminate].
  destruct (as_c_int d) as [d'|] eqn:Ed; [|discriminate].
  destruct (as_c_int h) as [h'|] eqn:Eh; [|discriminate].
  destruct (as_c_int mi) as [mi'|] eqn:Emi; [|discriminate].
  apply as_c_int_Ok in Ey, Em, Ed, Eh, Emi.
  destruct Ey as [-> _], Em as [-> _], Ed as [-> _], Eh as [-> _], Emi as [-> _].
  cbn [bind] in H.
  destruct (check_date_args y m d) as [[]|] eqn:Ec; [|discriminate].
  apply check_date_args_Ok in Ec. cbn [bind] in H.
  destruct (check_time_args h mi); [|discriminate].
  cbn [bind] in H. injection H as <-. now split.
Qed.

(** A timestamp comes out of [parse_date_time] only for a date of the
    calendar, with the fields that [int] read from the three tokens. *)
Lemma parse_date_time_Ok (date_str time_str : string) (t : datetime) :
  parse_date_time date_str time_str = Ok t ->
  valid_date (year t) (month t) (day t) = true /\
  exists p1 p2 p3,
    PyStr.split "-" date_str = [p1; p2; p3] /\
    PyInt.int p1 = Ok (day t) /\ PyInt.int p2 = Ok (month t) /\
    PyInt.int p3 = Ok (year t).
Proof.
  rewrite parse_date_time_eq.
  destruct (PyStr.split "-" date_str) as [|p1 [|p2 [|p3 [|p4 ps]]]]; try discriminate.
  destruct (PyInt.int p1) as [d|] eqn:E1; [|discriminate].
  destruct (PyInt.int p2) as [m|] eqn:E2; [|discriminate].
  destruct (PyInt.int p3) as [y|] eqn:E3; [|discriminate].
  cbn [bind].
  destruct (except_ValueError _ _) as [tm|]; [|discriminate].
  cbn [bind]. intros H. apply new_Ok in H. destruct H as [-> Hv].
  cbn [year month day]. split; [exact Hv|].
  exists p1, p2, p3. repeat split; assumption || reflexivity.
Qed.

(** C3, as the specification has it: the 31st of February parses to a
    timestamp with day 31 and month 2.  The code raises instead. *)
Lemma feb_31_is_not_parsed :
  ~ exists t, parse_date_time "31-02-2024" "02:30 PM" = Ok t /\
              day t = 31 /\ month t = 2.
Proof.
  intros (t & H & _). vm_compute in H. discriminate.
Qed.

(** C3, amended. [parse_date_time] raises a [ValueError] on 31-02-2024: its
    own code checks no range, but the [datetime] constructor it calls does.
    A timestamp is returned only when year, month and day form a date of the
    calendar, and then holds the three numbers read from the tokens. *)
Theorem parse_date_time_range_is_checked_by_datetime :
  parse_date_time "31-02-2024" "02:30 PM" =
    Raise (ValueError "day is out of range for month") /\
  (forall date_str time_str t,
      parse_date_time date_str time_str = Ok t ->
      valid_date (year t) (month t) (day t) = true /\
      exists p1 p2 p3,
        PyStr.split "-" date_str = [p1; p2; p3] /\
        PyInt.int p1 = Ok (day t) /\ PyInt.int p2 = Ok (month t) /\
        PyInt.int p3 = Ok (year t)).
Proof.
  split; [vm_compute; reflexivity|].
  intros date_str time_str t. apply parse_date_time_Ok.
Qed.

Lemma parse_date_time_range_is_checked_by_datetime_witness :
  valid_date 2024 6 15 = true /\
  exists p1 p2 p3,
    PyStr.split "-" "15-06-2024" = [p1; p2; p3] /\
    PyInt.int p1 = Ok 15 /\ PyInt.int p2 = Ok 6 /\ PyInt.int p3 = Ok 2024.
Proof.
  apply (proj2 parse_date_time_range_is_checked_by_datetime
           "15-06-2024" "02:30 PM" (mk_datetime 2024 6 15 14 30)).
  vm_compute. reflexivity.
Defined.

Lemma int_raises (s : string) (e : exn) :
  PyInt.int s = Raise e -> exists m, e = ValueError m /\ m <> date_format_message.
Proof.
  assert (Hinvalid : exists m, PyInt.invalid_literal s = ValueError m /\
                               m <> date_format_message).
  { eexists. split; [reflexivity|].
    unfold date_format_message. cbn [String.append]. discriminate. }
  unfold PyInt.int.
  destruct (PyInt.skip_sign _) as [negative body].
  destruct (PyInt.leading_underscore body); [now intros [= <-]|].
  destruct (PyInt.scan _ _ _ _) as [[[value digits] rest]|]; [|now intros [= <-]].
  destruct (Nat.ltb _ _).
  { intros [= <-]. eexists. split; [reflexivity|].
    unfold date_format_message. cbn [String.append]. discriminate. }
  destruct (Nat.eqb _ _); [now intros [= <-]|].
  destruct (PyInt.skip_space rest); [discriminate|now intros [= <-]].
Qed.

Lemma int_Ok_is_literal (s : string) (z : Z) :
  PyInt.int s = Ok z -> PyInt.is_int_literal s = true.
Proof.
  unfold PyInt.int, PyInt.is_int_literal.
  destruct (PyInt.skip_sign _) as [negative body].
  destruct (PyInt.leading_underscore body); [discriminate|].
  destruct (PyInt.scan _ _ _ _) as [[[value digits] rest]|]; [|discriminate].
  destruct (Nat.ltb _ _); [discriminate|].
  destruct (Nat.eqb _ _); [discriminate|].
  now destruct (PyInt.skip_space rest).
Qed.

(** C4, as the specification has it, at the date aa-bb-cc: three tokens that
    are no integers, a well-formed time, and an error that does not carry
    the message of the date format. *)
Lemma non_integer_tokens_carry_another_message :
  three_int_tokens "aa-bb-cc" = false /\ time_ok "02:30 PM" = true /\
  parse_date_time "aa-bb-cc" "02:30 PM" =
    Raise (ValueError "invalid literal for int() with base 10: 'aa'") /\
  parse_date_time "aa-bb-cc" "02:30 PM" <>
    Raise (ValueError "Date must be in DD-MM-YYYY format").
Proof.
  repeat split; try (vm_compute; reflexivity).
  vm_compute. discriminate.
Qed.

(** C4, amended. A date that does not split into exactly three
    hyphen-delimited integer tokens makes [parse_date_time] raise a
    [ValueError], whatever the time.  The message is that of the date format
    exactly when the number of tokens is not three; with three tokens it is
    the message that [int] raised on one of them. *)
Theorem malformed_date_raises_ValueError (date_str time_str : string) :
  three_int_tokens date_str = false ->
  exists m,
    parse_date_time date_str time_str = Raise (ValueError m) /\
    ((List.length (PyStr.split "-" date_str) <> 3%nat /\
      m = "Date must be in DD-MM-YYYY format") \/
     (List.length (PyStr.split "-" date_str) = 3%nat /\
      m <> "Date must be in DD-MM-YYYY format" /\
      exists tok, In tok (PyStr.split "-" date_str) /\
                  PyInt.int tok = Raise (ValueError m))).
Proof.
  unfold three_int_tokens. rewrite parse_date_time_eq.
  destruct (PyStr.split "-" date_str) as [|p1 [|p2 [|p3 [|p4 ps]]]];
    try (intros _; eexists; split; [reflexivity|left; split; [discriminate|reflexivity]]).
  intros Hlit.
  destruct (PyInt.int p1) as [d|e] eqn:E1.
  2:{ destruct (int_raises _ _ E1) as (m & -> & Hm). exists m.
      split; [reflexivity|right]. repeat split; [exact Hm|].
      exists p1. split; [now left|exact E1]. }
  destruct (PyInt.int p2) as [mo|e] eqn:E2.
  2:{ destruct (int_raises _ _ E2) as (m & -> & Hm). exists m.
      split; [reflexivity|right]. repeat split; [exact Hm|].
      exists p2. split; [right; now left|exact E2]. }
  destruct (PyInt.int p3) as [y|e] eqn:E3.
  2:{ destruct (int_raises _ _ E3) as (m & -> & Hm). exists m.
      split; [reflexivity|right]. repeat split; [exact Hm|].
      exists p3. split; [right; right; now left|exact E3]. }
  apply int_Ok_is_literal in E1, E2, E3. rewrite E1, E2, E3 in Hlit. discriminate.
Qed.

Lemma malformed_date_raises_ValueError_witness :
  three_int_tokens "15/06/2024" = false /\
  exists m,
    parse_date_time "15/06/2024" "02:30 PM" = Raise (ValueError m) /\
    ((List.length (PyStr.split "-" "15/06/2024") <> 3%nat /\
      m = "Date must be in DD-MM-YYYY format") \/
     (List.length (PyStr.split "-" "15/06/2024") = 3%nat /\
      m <> "Date must be in DD-MM-YYYY format" /\
      exists tok, In tok (PyStr.split "-" "15/06/2024") /\
                  PyInt.int tok = Raise (ValueError m))).
Proof.
  split; [reflexivity|].
  apply (malformed_date_raises_ValueError "15/06/2024" "02:30 PM"). reflexivity.
Defined.

(** ** The gateway at stage 5 *)

Lemma append_append (h : History) (a b : Turn) :
  append (append h a) b = (h ++ [a; b])%list.
Proof.
  unfold append. now rewrite <- app_assoc.
Qed.




(** The lookup does not read the log of the gateway. *)
Lemma cached_credentials_record_call (c : gateway_call) (w : World) :
  cached_credentials (record_call c w) =
    (fst (cached_credentials w), record_call c (snd (cached_credentials w))).
Proof.
  destruct w as [token file rf flow bd ex rm n tw calls].
  unfold cached_credentials, discard_token_in_try, discard_token, remove_token,
    record_call, with_token, count_removal.
  cbn.
  destruct token as [[|[creds|]]|]; cbn;
    try (destruct (valid creds); cbn);
    try (destruct (expired creds && refresh_token creds); cbn);
    try (destruct (rf creds); cbn);
    try (destruct (rm n) as [[]|?]; cbn);
    try (destruct (rm (S n)) as [[]|?]; cbn);
    reflexivity.
Qed.

(** [authenticate_google] by the outcome of the lookup. *)
Lemma authenticate_google_eq (w : World) :
  authenticate_google w =
    let wrap (r : res unit) : res unit :=
      match r with
      | Ok _ => Ok tt
      | Raise e => Raise (authentication_failed (str_exn e))
      end in
    match cached_credentials w with
    | (Raise e, w1) =>
        (Raise (authentication_failed (str_exn e)), record_call Authenticate w1)
    | (Ok (Some _), w1) => (wrap (build w), record_call Authenticate w1)
    | (Ok None, w1) =>
        if credentials_json w
        then match consent_flow w with
             | Raise e =>
                 (Raise (authentication_failed (str_exn e)),
                  record_call Authenticate w1)
             | Ok creds =>
                 match token_write w with
                 | Written =>
                     (wrap (build w),
                      record_call Authenticate
                        (with_token (Some (Pickled (Some creds))) w1))
                 | OpenFails e =>
                     (Raise (authentication_failed (str_exn e)),
                      record_call Authenticate w1)
                 | DumpFails e =>
                     (Raise (authentication_failed (str_exn e)),
                      record_call Authenticate (with_token (Some Unreadable) w1))
                 end
             end
        else (Raise (Exception credentials_file_not_found),
              record_call Authenticate w1)
    end.
Proof.
  destruct w as [token file rf flow bd ex rm n tw calls].
  unfold authenticate_google, cached_credentials, discard_token_in_try,
    discard_token, remove_token, write_token, record_call, with_token,
    count_removal, credentials_file_not_found.
  cbn.
  destruct token as [[|[creds|]]|]; cbn;
    try (destruct (valid creds); cbn);
    try (destruct (expired creds && refresh_token creds); cbn);
    try (destruct (rf creds); cbn);
    try (destruct (rm n) as [[]|?]; cbn);
    try (destruct (rm (S n)) as [[]|?]; cbn);
    destruct file; cbn; try reflexivity;
    destruct flow; cbn; try reflexivity;
    destruct tw; cbn; try reflexivity;
    destruct bd as [[]|?]; reflexivity.
Qed.

Lemma book_fails (event_name : string) (start_time end_time : datetime)
    (w w' : World) (e : exn) :
  gateway_fails event_name start_time end_time w e w' ->
  book event_name start_time end_time w = (Raise e, w').
Proof.
  unfold book. intros [e' w1 Ha | w1 e' w2 Ha Hc].
  - now rewrite Ha.
  - now rewrite Ha.
Qed.

Lemma stage_5_gateway_error (T : History) (user_input : string) (w w' : World)
    (event_name : string) (start_time end_time : datetime) (e : exn) :
  user_input <> "" -> is_reset user_input = false ->
  count_user_turns T = 4%nat ->
  booking_details (append T (User user_input)) user_input =
    Ok (event_name, start_time, end_time) ->
  book event_name start_time end_time w = (Raise e, w') ->
  conversational_flow T user_input w =
    (Returned (T ++ [User user_input; Bot ("Error: " ++ str_exn e)])%list, w').
Proof.
  intros Hne Hnr Hc Hd Hb.
  rewrite flow_stage_5, Hd, Hb by assumption. now rewrite append_append.
Qed.




(** C6. When the gateway call of stage 5 fails, in authentication or in the
    creation of the event, [conversational_flow] adds a Bot turn with the
    error and keeps the end-time turn: the turns before the input are
    unchanged and the transcript has five User turns. *)
Theorem gateway_failure_keeps_the_user_turn (T : History) (user_input : string)
    (w w' : World) (event_name : string) (start_time end_time : datetime)
    (e : exn) :
  user_input <> "" -> is_reset user_input = false ->
  count_user_turns T = 4%nat ->
  booking_details (append T (User user_input)) user_input =
    Ok (event_name, start_time, end_time) ->
  gateway_fails event_name start_time end_time w e w' ->
  let T' := (T ++ [User user_input; Bot ("Error: " ++ str_exn e)])%list in
  conversational_flow T user_input w = (Returned T', w') /\
  firstn (List.length T) T' = T /\
  count_user_turns T' = 5%nat /\
  get_conversation_stage T' = 5%nat.
Proof.
  intros Hne Hnr Hc Hd Hg T'. split.
  - apply (stage_5_gateway_error T user_input w w' event_name start_time end_time e);
      try assumption.
    now apply book_fails.
  - assert (Hcount : count_user_turns T' = 5%nat).
    { subst T'. rewrite <- append_append, count_append_Bot, count_append_User.
      now rewrite Hc. }
    split; [|split; [exact Hcount|]].
    + subst T'. rewrite firstn_app, firstn_all, Nat.sub_diag. cbn. apply app_nil_r.
    + now rewrite stage_is_length, <- count_is_length.
Qed.

Lemma gateway_failure_keeps_the_user_turn_witness :
  exists w',
    let T' := (awaiting_end_time ++
               [User "03:00 PM";
                Bot "Error: Failed to create event: quota exceeded"])%list in
    conversational_flow awaiting_end_time "03:00 PM" world_insert_fails =
      (Returned T', w') /\
    firstn (List.length awaiting_end_time) T' = awaiting_end_time /\
    count_user_turns T' = 5%nat /\
    get_conversation_stage T' = 5%nat.
Proof.
  eexists.
  eapply (gateway_failure_keeps_the_user_turn awaiting_end_time "03:00 PM"
            world_insert_fails _ "Dentist"
            (mk_datetime 2024 6 15 14 0) (mk_datetime 2024 6 15 15 0)
            (Exception "Failed to create event: quota exceeded")).
  - discriminate.
  - reflexivity.
  - reflexivity.
  - vm_compute. reflexivity.
  - eapply creation_raises; vm_compute; reflexivity.
Defined.

(** ** The confirmation stage *)

(** C7, as the specification has it: at stage 6 the answer yes gives the
    transcript that restart gives.  The two greetings differ. *)
Lemma yes_and_restart_differ :
  count_user_turns awaiting_yes_no = 5%nat /\
  fst (conversational_flow awaiting_yes_no "yes" world_ok) <>
  fst (conversational_flow awaiting_yes_no "restart" world_ok).
Proof.
  split; [reflexivity|]. vm_compute. discriminate.
Qed.

(** C7, amended. With five User turns in the transcript, the answer yes
    resets it to the one Bot turn that opens a conversation, Hi! How may I
    assist you?, where restart resets it to the one Bot turn Conversation
    restarted. Hi! How may I assist you?: both results are at stage 0 and
    differ in that text only. *)
Theorem yes_resets_to_the_opening_greeting (T : History) (user_input : string)
    (w : World) :
  count_user_turns T = 5%nat ->
  PyStr.lower user_input = "yes" ->
  conversational_flow T user_input w =
    (Returned [("Bot", "Hi! How may I assist you?")], w) /\
  conversational_flow T "restart" w =
    (Returned [("Bot", "Conversation restarted. Hi! How may I assist you?")], w) /\
  get_conversation_stage [("Bot", "Hi! How may I assist you?")] = 0%nat /\
  get_conversation_stage
    [("Bot", "Conversation restarted. Hi! How may I assist you?")] = 0%nat.
Proof.
  intros Hc Hyes. split; [|split; [|split; reflexivity]].
  - rewrite flow_stage_6, Hyes; try assumption.
    + reflexivity.
    + intros ->. discriminate.
    + unfold is_reset. now rewrite Hyes.
  - apply reset_returns_restarted. reflexivity.
Qed.

Lemma yes_resets_to_the_opening_greeting_witness :
  conversational_flow awaiting_yes_no "Yes" world_ok =
    (Returned [("Bot", "Hi! How may I assist you?")], world_ok) /\
  conversational_flow awaiting_yes_no "restart" world_ok =
    (Returned [("Bot", "Conversation restarted. Hi! How may I assist you?")], world_ok) /\
  get_conversation_stage [("Bot", "Hi! How may I assist you?")] = 0%nat /\
  get_conversation_stage
    [("Bot", "Conversation restarted. Hi! How may I assist you?")] = 0%nat.
Proof.
  apply (yes_resets_to_the_opening_greeting awaiting_yes_no "Yes" world_ok).
  - reflexivity.
  - reflexivity.
Defined.

(** ** Inputs without a reply *)

(** C8, at the transcript that the answer no closes.  The next input, hello,
    is neither rejected nor answered: it stays in the transcript, no Bot turn
    follows it, and the stage is 7.  The specification has the input
    rejected and the stage at 6. *)
Theorem input_after_no_advances_the_stage :
  fst (run greeting
         ["book an appointment"; "Dentist"; "15-06-2024"; "02:00 PM"; "03:00 PM"; "no"]
         world_ok) = Returned closed_by_no /\
  get_conversation_stage closed_by_no = 6%nat /\
  (forall w : World,
      conversational_flow closed_by_no "hello" w =
        (Returned (closed_by_no ++ [User "hello"])%list, w)) /\
  get_conversation_stage (closed_by_no ++ [User "hello"])%list = 7%nat.
Proof.
  repeat split; try (vm_compute; reflexivity).
Qed.

(** C9, at two inputs that stay in the transcript with no Bot turn after
    them: any input once the answer no has closed the conversation, and an
    end time when the year of the date does not fit a C [int], where the
    [OverflowError] of [datetime] passes the [except ValueError] handler of
    stage 5.  The specification has every kept turn answered. *)
Theorem kept_user_turn_without_reply :
  (forall w : World,
      conversational_flow closed_by_no "hello" w =
        (Returned (closed_by_no ++ [User "hello"])%list, w)) /\
  count_bot_turns (closed_by_no ++ [User "hello"])%list = count_bot_turns closed_by_no /\
  fst (run greeting
         ["book an appointment"; "Dentist"; "01-01-99999999999"; "02:00 PM"]
         world_ok) = Returned awaiting_end_time_far_year /\
  (forall w : World,
      conversational_flow awaiting_end_time_far_year "03:00 PM" w =
        (Raised (OverflowError "signed integer is greater than maximum")
                (awaiting_end_time_far_year ++ [User "03:00 PM"])%list, w)) /\
  count_bot_turns (awaiting_end_time_far_year ++ [User "03:00 PM"])%list =
    count_bot_turns awaiting_end_time_far_year.
Proof.
  repeat split; try (vm_compute; reflexivity).
Qed.

(** ** A date off the calendar *)

Section RegexInversion.
Context {A : Type}.
Variables (k1 : Z -> string -> option A) (k0 : string -> option A)
          (kp : bool -> string -> option A) (r : A).

Lemma digit_val_range (lo hi : nat) (c : ascii) :
  PyStr.in_range lo hi c = true -> (48 <= lo)%nat ->
  Z.of_nat (lo - 48) <= digit_val c <= Z.of_nat (hi - 48).
Proof.
  unfold PyStr.in_range, digit_val. intros H Hlo.
  apply andb_prop in H. destruct H as [H1 H2].
  apply Nat.leb_le in H1, H2. lia.
Qed.

Lemma re_I_Some (s : string) :
  re_I s k1 = Some r -> exists i s', 1 <= i <= 12 /\ k1 i s' = Some r.
Proof.
  unfold re_I, orelse.
  destruct s as [|c [|d s']].
  - discriminate.
  - destruct (PyStr.in_range 49 57 c) eqn:E; [|discriminate].
    intros H. exists (digit_val c), EmptyString. split; [|exact H].
    apply digit_val_range in E; cbn in E; lia.
  - destruct (Ascii.eqb c "1" && PyStr.in_range 48 50 d) eqn:E1.
    + destruct (k1 (10 + digit_val d) s') eqn:K.
      * intros H. exists (10 + digit_val d), s'. rewrite K. split; [|exact H].
        apply andb_prop in E1. destruct E1 as [_ E1].
        apply digit_val_range in E1; cbn in E1; lia.
      * destruct (Ascii.eqb c "0" && PyStr.in_range 49 57 d) eqn:E2.
        -- apply andb_prop in E1, E2. destruct E1 as [E1 _], E2 as [E2 _].
           apply Ascii.eqb_eq in E1, E2. congruence.
        -- destruct (PyStr.in_range 49 57 c) eqn:E3; [|discriminate].
           intros H. exists (digit_val c), (String d s'). split; [|exact H].
           apply digit_val_range in E3; cbn in E3; lia.
    + destruct (Ascii.eqb c "0" && PyStr.in_range 49 57 d) eqn:E2.
      * destruct (k1 (digit_val d) s') eqn:K.
        -- intros H. exists (digit_val d), s'. rewrite K. split; [|exact H].
           apply andb_prop in E2. destruct E2 as [_ E2].
           apply digit_val_range in E2; cbn in E2; lia.
        -- destruct (PyStr.in_range 49 57 c) eqn:E3; [|discriminate].
           intros H. exists (digit_val c), (String d s'). split; [|exact H].
           apply digit_val_range in E3; cbn in E3; lia.
      * destruct (PyStr.in_range 49 57 c) eqn:E3; [|discriminate].
        intros H. exists (digit_val c), (String d s'). split; [|exact H].
        apply digit_val_range in E3; cbn in E3; lia.
Qed.

Lemma re_M_Some (s : string) :
  re_M s k1 = Some r -> exists m s', 0 <= m <= 59 /\ k1 m s' = Some r.
Proof.
  unfold re_M, orelse.
  assert (Hone : forall c s',
             (if PyStr.isdigit_char c then k1 (digit_val c) s' else None) = Some r ->
             exists m s'', 0 <= m <= 59 /\ k1 m s'' = Some r).
  { intros c s' H. destruct (PyStr.isdigit_char c) eqn:E; [|discriminate].
    exists (digit_val c), s'. split; [|exact H].
    apply digit_val_range in E; cbn in E; lia. }
  destruct s as [|c [|d s']].
  - discriminate.
  - apply Hone.
  - destruct (PyStr.in_range 48 53 c && PyStr.isdigit_char d) eqn:E1.
    + destruct (k1 (10 * digit_val c + digit_val d) s') eqn:K.
      * intros H. exists (10 * digit_val c + digit_val d), s'. rewrite K.
        split; [|exact H].
        apply andb_prop in E1. destruct E1 as [Ec Ed].
        apply digit_val_range in Ec, Ed; cbn in Ec, Ed; lia.
      * apply Hone.
    + apply Hone.
Qed.

Lemma re_char_Some (c : ascii) (s : string) :
  re_char c s k0 = Some r -> exists s', k0 s' = Some r.
Proof.
  unfold re_char. destruct s as [|d s']; [discriminate|].
  destruct (Ascii.eqb c d); [eauto|discriminate].
Qed.

Lemma re_spaces_Some (s : string) :
  re_spaces s k0 = Some r -> exists s', k0 s' = Some r.
Proof.
  induction s as [|c s IH]; cbn [re_spaces]; [discriminate|].
  destruct (PyStr.isspace_char c); [|discriminate].
  unfold orelse. destruct (re_spaces s k0) eqn:E.
  - intros H. apply IH. exact H.
  - eauto.
Qed.

Lemma re_p_Some (s : string) :
  re_p s kp = Some r -> exists pm s', kp pm s' = Some r.
Proof.
  unfold re_p. destruct s as [|c [|d s']]; try discriminate.
  destruct (Ascii.eqb (PyStr.lower_char d) "m"); [|discriminate].
  destruct (Ascii.eqb (PyStr.lower_char c) "a"); [eauto|].
  destruct (Ascii.eqb (PyStr.lower_char c) "p"); [eauto|discriminate].
Qed.
End RegexInversion.

Lemma format_regex_range (s : string) (i m : Z) (pm : bool) (rest : string) :
  format_regex s = Some (i, m, pm, rest) -> 1 <= i <= 12 /\ 0 <= m <= 59.
Proof.
  unfold format_regex. intros H.
  apply re_I_Some in H. destruct H as (i' & s1 & Hi & H).
  apply re_char_Some in H. destruct H as (s2 & H).
  apply re_M_Some in H. destruct H as (m' & s3 & Hm & H).
  apply re_spaces_Some in H. destruct H as (s4 & H).
  apply re_p_Some in H. destruct H as (pm' & rest' & H).
  injection H as -> -> _ _. now split.
Qed.

(** The hour and the minute that [strptime] returns are those of a clock. *)
Lemma strptime_Ok_range (s : string) (t : datetime) :
  strptime s = Ok t -> 0 <= hour t <= 23 /\ 0 <= minute t <= 59.
Proof.
  unfold strptime.
  destruct (format_regex s) as [[[[i m] pm] rest]|] eqn:E; [|discriminate].
  destruct rest; [|discriminate].
  intros H. injection H as <-. cbn [hour minute].
  apply format_regex_range in E. unfold hour_of.
  destruct pm, (i =? 12) eqn:Ei; lia.
Qed.

Lemma clock_fits_c_int (z : Z) : 0 <= z <= 59 -> fits_c_int z = true.
Proof.
  unfold fits_c_int, INT_MIN, INT_MAX. lia.
Qed.

(** For a date off the calendar and a well-formed time, [parse_date_time]
    fails in the construction of the timestamp. *)
Lemma off_calendar_parse (date_str time_str : string) :
  off_calendar date_str = true -> time_ok time_str = true ->
  exists d m y tm msg,
    date_fields date_str = Some (d, m, y) /\
    strptime (PyStr.upper (PyStr.strip time_str)) = Ok tm /\
    PyDatetime.new y m d (hour tm) (minute tm) = Raise (ValueError msg) /\
    parse_date_time date_str time_str = Raise (ValueError msg).
Proof.
  unfold off_calendar, date_fields, time_ok. intros Hoff Htime.
  apply andb_prop in Hoff. destruct Hoff as [_ Hoff].
  rewrite parse_date_time_eq.
  destruct (PyStr.split "-" date_str) as [|p1 [|p2 [|p3 [|p4 ps]]]]; try discriminate.
  destruct (PyInt.int p1) as [d|]; [|discriminate].
  destruct (PyInt.int p2) as [m|]; [|discriminate].
  destruct (PyInt.int p3) as [y|]; [|discriminate].
  destruct (strptime _) as [tm|] eqn:Etm; [|discriminate].
  apply andb_prop in Hoff. destruct Hoff as [Hoff Hinvalid].
  apply andb_prop in Hoff. destruct Hoff as [Hoff Hy].
  apply andb_prop in Hoff. destruct Hoff as [Hd Hm].
  apply negb_true_iff in Hinvalid.
  destruct (check_date_args_raises y m d Hinvalid) as [msg Hmsg].
  destruct (strptime_Ok_range _ _ Etm) as [Hh Hmi].
  assert (Hnew : PyDatetime.new y m d (hour tm) (minute tm) = Raise (ValueError msg)).
  { unfold PyDatetime.new.
    rewrite (as_c_int_fits y Hy), (as_c_int_fits m Hm), (as_c_int_fits d Hd).
    rewrite (as_c_int_fits (hour tm)) by (apply clock_fits_c_int; lia).
    rewrite (as_c_int_fits (minute tm)) by (apply clock_fits_c_int; lia).
    cbn [bind]. now rewrite Hmsg. }
  exists d, m, y, tm, msg. repeat split; try reflexivity; exact Hnew.
Qed.

(** Stage 5 on a date off the calendar: the end time is dropped. *)
Lemma stage_5_off_calendar (T : History) (user_input : string) (w : World)
    (u1 name date_str start_str : string) :
  user_input <> "" -> is_reset user_input = false ->
  user_messages T = [u1; name; date_str; start_str] ->
  off_calendar date_str = true -> time_ok start_str = true ->
  exists d m y tm msg,
    date_fields date_str = Some (d, m, y) /\
    strptime (PyStr.upper (PyStr.strip start_str)) = Ok tm /\
    PyDatetime.new y m d (hour tm) (minute tm) = Raise (ValueError msg) /\
    conversational_flow T user_input w =
      (Returned (T ++ [end_time_refused msg])%list, w).
Proof.
  intros Hne Hnr Hu Hoff Htime.
  destruct (off_calendar_parse date_str start_str Hoff Htime)
    as (d & m & y & tm & msg & Hf & Hs & Hnew & Hparse).
  exists d, m, y, tm, msg. repeat split; try assumption.
  rewrite flow_stage_5 by eauto using four_user_messages.
  rewrite (booking_details_at_stage_5 _ _ _ _ _ _ Hu), Hparse. reflexivity.
Qed.

(** One input that is no restart command keeps the transcript held at the
    date and leaves the world as it is. *)
Lemma held_at_step (date_str : string) (T : History) (user_input : string)
    (w : World) :
  off_calendar date_str = true -> held_at date_str T ->
  is_reset user_input = false ->
  exists T', conversational_flow T user_input w = (Returned T', w) /\
             held_at date_str T'.
Proof.
  intros Hoff Hheld Hnr.
  destruct (String.eqb user_input "") eqn:Hempty.
  { exists T. apply String.eqb_eq in Hempty. subst. split; [reflexivity|exact Hheld]. }
  apply String.eqb_neq in Hempty.
  destruct Hheld as (u1 & name & [Hu | (start_str & Hu & Htime)]).
  - assert (Hc : count_user_turns T = 3%nat) by now rewrite count_is_length, Hu.
    rewrite flow_stage_4 by assumption.
    destruct (strptime _) as [tm|e] eqn:E.
    + eexists. split; [reflexivity|]. exists u1, name. right. exists user_input.
      rewrite user_messages_append_Bot, user_messages_append_User, Hu.
      split; [reflexivity|]. unfold time_ok. now rewrite E.
    + destruct (strptime_raises_ValueError _ _ E) as [m ->].
      eexists. split; [reflexivity|]. exists u1, name. left.
      now rewrite user_messages_append_Bot.
  - destruct (stage_5_off_calendar T user_input w u1 name date_str start_str
                Hempty Hnr Hu Hoff Htime) as (d & m & y & tm & msg & _ & _ & _ & E).
    eexists. split; [exact E|]. exists u1, name. right. exists start_str.
    split; [|exact Htime].
    change (T ++ [end_time_refused msg])%list
      with (append T (Bot ("Invalid time: " ++ msg ++
              ". Please enter a valid end time in HH:MM AM/PM format."))).
    now rewrite user_messages_append_Bot.
Qed.

Lemma held_at_run (date_str : string) (inputs : list string) :
  off_calendar date_str = true ->
  Forall (fun user_input => is_reset user_input = false) inputs ->
  forall (T : History) (w : World),
    held_at date_str T ->
    exists T', run T inputs w = (Returned T', w) /\ held_at date_str T'.
Proof.
  intros Hoff Hall. induction Hall as [|user_input inputs Hnr _ IH]; intros T w Hheld.
  - exists T. split; [reflexivity|exact Hheld].
  - destruct (held_at_step date_str T user_input w Hoff Hheld Hnr) as (T1 & E & Hheld1).
    cbn [run]. rewrite E. apply IH. exact Hheld1.
Qed.

(** *** The transcripts that the conversation produces *)

Lemma checked_keep (answers : list string) (user_input : string) :
  checked answers -> kept_ok answers user_input ->
  checked (answers ++ [user_input])%list.
Proof.
  intros (Hd & Ht & Hp) (Kd & Kt & Kp).
  destruct answers as [|a1 [|a2 [|a3 [|a4 [|a5 rest]]]]];
    cbn [List.length nth_error] in Hd, Ht, Hp, Kd, Kt, Kp;
    (split; [|split]); cbn [app nth_error List.length];
    intros; try discriminate;
    repeat match goal with
      | E : Some _ = Some _ |- _ => injection E as <-
      end;
    try lia.
  - now apply Kd.
  - now apply Hd.
  - now apply Kt.
  - now apply Hd.
  - now apply Ht.
  - now apply (Kp eq_refl a3 a4 m).
  - now apply Hd.
  - now apply Ht.
  - apply (Hp a3 a4 m); try reflexivity. lia.
Qed.

(** The User turns after a call: those before it, none, or those before it
    and the input, which the stage has then checked. *)
Lemma flow_user_messages (T : History) (user_input : string) (w : World) :
  let after := user_messages (final_history (fst (conversational_flow T user_input w))) in
  after = user_messages T \/ after = [] \/
  (after = (user_messages T ++ [user_input])%list /\
   kept_ok (user_messages T) user_input).
Proof.
  cbv zeta.
  destruct (String.eqb user_input "") eqn:Hempty.
  { left. unfold conversational_flow. now rewrite Hempty. }
  destruct (is_reset user_input) eqn:Hnr.
  { right. left. unfold conversational_flow, is_reset in *. now rewrite Hempty, Hnr. }
  apply String.eqb_neq in Hempty.
  pose proof (count_is_length T) as Hlen.
  destruct (count_user_turns T) as [|[|[|[|[|[|n]]]]]] eqn:Hc.
  - rewrite flow_stage_1 by assumption.
    destruct (_ || _); cbn [fst final_history];
      rewrite ?user_messages_append_Bot, ?user_messages_append_User; [|now left].
    right. right. split; [reflexivity|]. repeat split; intros E; rewrite <- Hlen in E; discriminate.
  - rewrite flow_stage_2 by assumption. cbn [fst final_history].
    rewrite user_messages_append_Bot, user_messages_append_User.
    right. right. split; [reflexivity|]. repeat split; intros E; rewrite <- Hlen in E; discriminate.
  - rewrite flow_stage_3 by assumption.
    destruct (date_format_ok user_input) eqn:Hd; cbn [fst final_history];
      rewrite ?user_messages_append_Bot, ?user_messages_append_User; [|now left].
    right. right. split; [reflexivity|].
    repeat split; intros E; rewrite <- Hlen in E; try discriminate. exact Hd.
  - rewrite flow_stage_4 by assumption.
    destruct (strptime _) as [tm|e] eqn:Ht.
    + cbn [fst final_history].
      rewrite user_messages_append_Bot, user_messages_append_User.
      right. right. split; [reflexivity|].
      repeat split; intros E; rewrite <- Hlen in E; try discriminate.
      unfold time_ok. now rewrite Ht.
    + destruct (strptime_raises_ValueError _ _ Ht) as [m ->]. cbn [fst final_history].
      rewrite user_messages_append_Bot. now left.
  - rewrite flow_stage_5 by assumption.
    assert (Hkept :
              (forall e, booking_details (append T (User user_input)) user_input
                         <> Raise (ValueError e)) ->
              kept_ok (user_messages T) user_input).
    { intros Hnot. repeat split; intros E; rewrite <- Hlen in E; try discriminate.
      intros d s m Hd Hs Hparse.
      destruct (user_messages T) as [|a1 [|a2 [|a3 [|a4 [|a5 rest]]]]] eqn:Hu;
        try discriminate.
      cbn in Hd, Hs. injection Hd as ->. injection Hs as ->.
      apply (Hnot m).
      rewrite (booking_details_at_stage_5 _ _ _ _ _ _ Hu), Hparse. reflexivity. }
    destruct (booking_details _ _) as [[[name st] en]|e] eqn:Hb.
    + destruct (book name st en w) as [[result|e] w']; cbn [fst final_history];
        rewrite ?user_messages_append_Bot, user_messages_append_User;
        right; right; (split; [reflexivity|]); apply Hkept; intros e0;
        discriminate.
    + destruct e as [m|m|m|m]; cbn [fst final_history];
        rewrite ?user_messages_append_Bot, ?user_messages_append_User;
        [now left| | |];
        right; right; (split; [reflexivity|]); apply Hkept; intros e0;
        discriminate.
  - rewrite flow_stage_6 by assumption.
    destruct (String.eqb _ "yes"); [right; now left|].
    destruct (String.eqb _ "no"); cbn [fst final_history];
      rewrite ?user_messages_append_Bot, ?user_messages_append_User; [|now left].
    right. right. split; [reflexivity|]. repeat split; intros E; rewrite <- Hlen in E; discriminate.
  - rewrite flow_beyond_stage_6 by (assumption || lia). cbn [fst final_history].
    rewrite user_messages_append_User.
    right. right. split; [reflexivity|]. repeat split; intros E; rewrite <- Hlen in E; discriminate.
Qed.

Lemma produced_checked (T : History) : produced T -> checked (user_messages T).
Proof.
  induction 1 as [| |T user_input w _ IH].
  - repeat split; intros; discriminate.
  - repeat split; intros; discriminate.
  - destruct (flow_user_messages T user_input w) as [E | [E | [E K]]]; rewrite E.
    + exact IH.
    + repeat split; intros; discriminate.
    + now apply checked_keep.
Qed.

(** A produced transcript whose third User turn is a date off the calendar
    is held at that date: the booking never got past the end time. *)
Lemma produced_held_at (T : History) (date_str : string) :
  produced T -> nth_error (user_messages T) 2 = Some date_str ->
  off_calendar date_str = true -> held_at date_str T.
Proof.
  intros Hp Hdate Hoff. apply produced_checked in Hp.
  destruct Hp as (_ & Ht & Hparse).
  destruct (user_messages T) as [|a1 [|a2 [|a3 [|a4 rest]]]] eqn:Hu; try discriminate.
  - cbn in Hdate. injection Hdate as ->. exists a1, a2. now left.
  - cbn in Hdate. injection Hdate as ->.
    assert (Htime : time_ok a4 = true) by now apply Ht.
    destruct rest as [|a5 rest].
    + exists a1, a2. right. exists a4. now split.
    + destruct (off_calendar_parse date_str a4 Hoff Htime)
        as (d & m & y & tm & msg & _ & _ & _ & E).
      exfalso. apply (Hparse date_str a4 msg); try reflexivity; [cbn; lia|exact E].
Qed.

(** C10, as stated, at two dates that pass the stage-3 test and are no dates
    of the calendar.  With a year that does not fit a C [int], the end time is
    not dropped at stage 5: [datetime] raises an [OverflowError] that no
    handler of [conversational_flow] catches.  With a year of 4301 digits the
    failure is that of [int], before any timestamp is built. *)
Lemma far_year_is_not_rolled_back :
  date_format_ok "01-01-99999999999" = true /\
  date_fields "01-01-99999999999" = Some (1, 1, 99999999999) /\
  valid_date 99999999999 1 1 = false /\
  nth_error (user_messages awaiting_end_time_far_year) 2 = Some "01-01-99999999999" /\
  get_conversation_stage (awaiting_end_time_far_year ++ [User "03:00 PM"])%list = 5%nat /\
  conversational_flow awaiting_end_time_far_year "03:00 PM" world_ok =
    (Raised (OverflowError "signed integer is greater than maximum")
            (awaiting_end_time_far_year ++ [User "03:00 PM"])%list, world_ok) /\
  date_format_ok ("01-01-" ++ long_year) = true /\
  PyInt.int long_year = Raise (PyInt.exceeds_limit 4301) /\
  parse_date_time ("01-01-" ++ long_year) "02:00 PM" = Raise (PyInt.exceeds_limit 4301).
Proof.
  repeat split; vm_compute; reflexivity.
Qed.

Lemma run_produced (inputs : list string) :
  forall (T : History) (w : World),
    produced T -> produced (final_history (fst (run T inputs w))).
Proof.
  induction inputs as [|user_input inputs IH]; intros T w Hp; [exact Hp|].
  cbn [run]. pose proof (produced_call T user_input w Hp) as Hstep.
  destruct (conversational_flow T user_input w) as [[T'|e T'] w'].
  - apply IH. exact Hstep.
  - exact Hstep.
Qed.

(** C10, amended. In a transcript that the conversation has produced, let
    the third User turn be a date that passes the stage-3 test and whose day,
    month and year, as [int] reads them, fit a C [int] and are no date of the
    calendar (31-02-2024).  Then every stage-5 call fails with the
    [ValueError] of the [datetime] constructor in [parse_date_time], drops
    the end time just added and nothing else, and adds one Bot turn; and no
    sequence of inputs without a restart command changes the world: the
    gateway is not called, the date stays the third User turn, and the
    transcript keeps three or four User turns. *)
Theorem off_calendar_date_never_reaches_the_gateway (date_str : string)
    (T : History) (w : World) :
  produced T ->
  nth_error (user_messages T) 2 = Some date_str ->
  off_calendar date_str = true ->
  (forall user_input,
      get_conversation_stage (T ++ [User user_input])%list = 5%nat ->
      user_input <> "" -> is_reset user_input = false ->
      exists d m y start_str tm msg,
        nth_error (user_messages T) 3 = Some start_str /\
        date_fields date_str = Some (d, m, y) /\
        strptime (PyStr.upper (PyStr.strip start_str)) = Ok tm /\
        PyDatetime.new y m d (hour tm) (minute tm) = Raise (ValueError msg) /\
        conversational_flow T user_input w =
          (Returned (T ++ [end_time_refused msg])%list, w) /\
        get_conversation_stage (T ++ [end_time_refused msg])%list = 4%nat) /\
  (forall inputs,
      Forall (fun user_input => is_reset user_input = false) inputs ->
      exists T',
        run T inputs w = (Returned T', w) /\
        gateway_calls (snd (run T inputs w)) = gateway_calls w /\
        nth_error (user_messages T') 2 = Some date_str /\
        (count_user_turns T' = 3%nat \/ count_user_turns T' = 4%nat)).
Proof.
  intros Hp Hdate Hoff.
  pose proof (produced_held_at T date_str Hp Hdate Hoff) as Hheld. split.
  - intros user_input Hc Hne Hnr.
    destruct Hheld as (u1 & name & [Hu | (start_str & Hu & Htime)]).
    { rewrite stage_is_length, user_messages_app, Hu in Hc. discriminate. }
    destruct (stage_5_off_calendar T user_input w u1 name date_str start_str
                Hne Hnr Hu Hoff Htime) as (d & m & y & tm & msg & Hf & Hs & Hnew & E).
    exists d, m, y, start_str, tm, msg. rewrite Hu. repeat split; try assumption.
    rewrite stage_is_length, user_messages_app, Hu. reflexivity.
  - intros inputs Hall.
    destruct (held_at_run date_str inputs Hoff Hall T w Hheld) as (T' & E & Hheld').
    exists T'. rewrite E. repeat split; try assumption.
    + destruct Hheld' as (u1 & name & [Hu | (start_str & Hu & _)]); now rewrite Hu.
    + rewrite count_is_length.
      destruct Hheld' as (u1 & name & [Hu | (start_str & Hu & _)]); rewrite Hu;
        [now left|now right].
Qed.

Lemma off_calendar_date_never_reaches_the_gateway_witness :
  produced awaiting_end_time_feb_31 /\
  nth_error (user_messages awaiting_end_time_feb_31) 2 = Some "31-02-2024" /\
  off_calendar "31-02-2024" = true /\
  (exists T',
      run awaiting_end_time_feb_31 ["03:00 PM"; "yes"; "04:00 PM"] world_ok =
        (Returned T', world_ok) /\
      gateway_calls
        (snd (run awaiting_end_time_feb_31 ["03:00 PM"; "yes"; "04:00 PM"] world_ok)) =
        gateway_calls world_ok /\
      nth_error (user_messages T') 2 = Some "31-02-2024" /\
      (count_user_turns T' = 3%nat \/ count_user_turns T' = 4%nat)).
Proof.
  assert (Hp : produced awaiting_end_time_feb_31).
  { assert (E : final_history
                  (fst (run greeting
                          ["book an appointment"; "Dentist"; "31-02-2024"; "02:00 PM"]
                          world_ok)) = awaiting_end_time_feb_31)
      by (vm_compute; reflexivity).
    rewrite <- E. apply run_produced. apply produced_greeting. }
  assert (Hdate : nth_error (user_messages awaiting_end_time_feb_31) 2 = Some "31-02-2024")
    by reflexivity.
  assert (Hoff : off_calendar "31-02-2024" = true) by (vm_compute; reflexivity).
  split; [exact Hp|]. split; [exact Hdate|]. split; [exact Hoff|].
  apply (proj2 (off_calendar_date_never_reaches_the_gateway "31-02-2024"
                  awaiting_end_time_feb_31 world_ok Hp Hdate Hoff)).
  repeat constructor.
Defined.

(** * Further properties of the code *)

(** ** The parser, continued *)

Lemma days_in_month_bounds (y m : Z) :
  1 <= m <= 12 -> 28 <= days_in_month y m <= 31.
Proof.
  intros Hm. unfold days_in_month.
  destruct ((m =? 2) && is_leap y); [lia|].
  assert (Hnth : forall k : Z, In k [1; 2; 3; 4; 5; 6; 7; 8; 9; 10; 11; 12] ->
            28 <= nth (Z.to_nat k) [0; 31; 28; 31; 30; 31; 30; 31; 31; 30; 31; 30; 31] 0
            <= 31).
  { intros k Hk. cbn [In] in Hk.
    repeat (destruct Hk as [<- | Hk]; [vm_compute; split; discriminate|]).
    contradiction. }
  apply Hnth. cbn [In]. lia.
Qed.

Lemma valid_date_fits (y m d : Z) :
  valid_date y m d = true ->
  fits_c_int y = true /\ fits_c_int m = true /\ fits_c_int d = true.
Proof.
  unfold valid_date. intros H.
  assert (Hm : 1 <= m <= 12) by lia.
  pose proof (days_in_month_bounds y m Hm) as Hdays.
  unfold fits_c_int, INT_MIN, INT_MAX. lia.
Qed.

Lemma check_time_args_Ok (h mi : Z) :
  check_time_args h mi = Ok tt <-> 0 <= h <= 23 /\ 0 <= mi <= 59.
Proof.
  unfold check_time_args.
  destruct ((h <? 0) || (h >? 23)) eqn:Eh; [split; [discriminate|lia]|].
  destruct ((mi <? 0) || (mi >? 59)) eqn:Em; [split; [discriminate|lia]|].
  split; [lia|reflexivity].
Qed.

Lemma new_valid (y m d h mi : Z) :
  valid_date y m d = true -> 0 <= h <= 23 -> 0 <= mi <= 59 ->
  PyDatetime.new y m d h mi = Ok (mk_datetime y m d h mi).
Proof.
  intros Hv Hh Hmi. destruct (valid_date_fits y m d Hv) as (Fy & Fm & Fd).
  unfold PyDatetime.new.
  rewrite (as_c_int_fits y Fy), (as_c_int_fits m Fm), (as_c_int_fits d Fd).
  rewrite (as_c_int_fits h) by (unfold fits_c_int, INT_MIN, INT_MAX; lia).
  rewrite (as_c_int_fits mi) by (unfold fits_c_int, INT_MIN, INT_MAX; lia).
  cbn [bind]. rewrite (proj2 (check_date_args_Ok y m d) Hv). cbn [bind].
  rewrite (proj2 (check_time_args_Ok h mi) (conj Hh Hmi)). reflexivity.
Qed.

Lemma new_Ok_clock (y m d h mi : Z) (t : datetime) :
  PyDatetime.new y m d h mi = Ok t -> 0 <= hour t <= 23 /\ 0 <= minute t <= 59.
Proof.
  intros H. pose proof (new_Ok _ _ _ _ _ _ H) as [-> _]. cbn [hour minute].
  revert H. unfold PyDatetime.new.
  destruct (as_c_int y) as [y'|]; [|discriminate].
  destruct (as_c_int m) as [m'|]; [|discriminate].
  destruct (as_c_int d) as [d'|]; [|discriminate].
  destruct (as_c_int h) as [h'|] eqn:Eh; [|discriminate].
  destruct (as_c_int mi) as [mi'|] eqn:Emi; [|discriminate].
  apply as_c_int_Ok in Eh, Emi. destruct Eh as [-> _], Emi as [-> _].
  cbn [bind]. destruct (check_date_args y' m' d') as [[]|]; [|discriminate].
  cbn [bind]. destruct (check_time_args h mi) as [[]|] eqn:Et; [|discriminate].
  intros _. now apply check_time_args_Ok.
Qed.

Lemma as_c_int_raises (z : Z) (e : exn) :
  as_c_int z = Raise e -> (exists msg, e = OverflowError msg) /\ fits_c_int z = false.
Proof.
  unfold as_c_int, fits_c_int.
  destruct ((z >? LONG_MAX) || (z <? LONG_MIN)) eqn:E1.
  { intros [= <-]. split; [eauto|]. unfold LONG_MAX, LONG_MIN, INT_MIN, INT_MAX in *. lia. }
  destruct (z >? INT_MAX) eqn:E2; [intros [= <-]; split; [eauto|lia]|].
  destruct (z <? INT_MIN) eqn:E3; [intros [= <-]; split; [eauto|lia]|].
  discriminate.
Qed.

Lemma check_time_args_raises (h mi : Z) (e : exn) :
  check_time_args h mi = Raise e -> exists msg, e = ValueError msg.
Proof.
  unfold check_time_args.
  repeat (destruct (_ || _); [intros [= <-]; eauto|]). discriminate.
Qed.

Lemma check_date_args_raises_ValueError (y m d : Z) (e : exn) :
  check_date_args y m d = Raise e -> exists msg, e = ValueError msg.
Proof.
  unfold check_date_args.
  repeat (destruct (_ || _); [intros [= <-]; eauto|]). discriminate.
Qed.

(** What [datetime] raises: a [ValueError] for a range, an [OverflowError]
    for a number that does not fit a C [int]. *)
Lemma new_raises (y m d h mi : Z) (e : exn) :
  PyDatetime.new y m d h mi = Raise e -> 0 <= h <= 23 -> 0 <= mi <= 59 ->
  (exists msg, e = ValueError msg) \/
  ((exists msg, e = OverflowError msg) /\
   fits_c_int d && fits_c_int m && fits_c_int y = false).
Proof.
  unfold PyDatetime.new. intros H Hh Hmi.
  destruct (as_c_int y) as [y'|ey] eqn:Ey.
  2:{ injection H as <-. destruct (as_c_int_raises _ _ Ey) as [Ho F].
      right. split; [exact Ho|]. rewrite F. now rewrite !andb_false_r. }
  destruct (as_c_int m) as [m'|em] eqn:Em.
  2:{ injection H as <-. destruct (as_c_int_raises _ _ Em) as [Ho F].
      right. split; [exact Ho|]. rewrite F. now rewrite andb_false_r. }
  destruct (as_c_int d) as [d'|ed] eqn:Ed.
  2:{ injection H as <-. destruct (as_c_int_raises _ _ Ed) as [Ho F].
      right. split; [exact Ho|]. now rewrite F. }
  rewrite (as_c_int_fits h) in H by (unfold fits_c_int, INT_MIN, INT_MAX; lia).
  rewrite (as_c_int_fits mi) in H by (unfold fits_c_int, INT_MIN, INT_MAX; lia).
  cbn [bind] in H. left.
  destruct (check_date_args y' m' d') as [[]|ec] eqn:Ec.
  - cbn [bind] in H. destruct (check_time_args h mi) as [[]|et] eqn:Et; [discriminate|].
    injection H as <-. eapply check_time_args_raises; eauto.
  - injection H as <-. eapply check_date_args_raises_ValueError; eauto.
Qed.

Lemma date_fields_tokens (date_str : string) (d m y : Z) :
  date_fields date_str = Some (d, m, y) ->
  exists p1 p2 p3,
    PyStr.split "-" date_str = [p1; p2; p3] /\
    PyInt.int p1 = Ok d /\ PyInt.int p2 = Ok m /\ PyInt.int p3 = Ok y.
Proof.
  unfold date_fields.
  destruct (PyStr.split "-" date_str) as [|p1 [|p2 [|p3 [|p4 ps]]]]; try discriminate.
  destruct (PyInt.int p1) as [d'|] eqn:E1; [|discriminate].
  destruct (PyInt.int p2) as [m'|] eqn:E2; [|destruct (PyInt.int p3); discriminate].
  destruct (PyInt.int p3) as [y'|] eqn:E3; [|discriminate].
  intros [= <- <- <-]. exists p1, p2, p3. now repeat split.
Qed.

(** With three integer tokens, [parse_date_time] is the time test followed
    by the constructor. *)
Lemma parse_date_time_fields (date_str time_str : string) (d m y : Z) :
  date_fields date_str = Some (d, m, y) ->
  parse_date_time date_str time_str =
    match strptime (PyStr.upper (PyStr.strip time_str)) with
    | Ok tm => PyDatetime.new y m d (hour tm) (minute tm)
    | Raise _ => Raise (ValueError "Time must be in HH:MM AM/PM format")
    end.
Proof.
  intros Hf. destruct (date_fields_tokens _ _ _ _ Hf) as (p1 & p2 & p3 & Hs & E1 & E2 & E3).
  rewrite parse_date_time_eq, Hs, E1, E2, E3. cbn [bind].
  destruct (strptime _) as [tm|e] eqn:Et; [reflexivity|].
  destruct (strptime_raises_ValueError _ _ Et) as [msg ->]. reflexivity.
Qed.

(** X1. [parse_date_time] returns a timestamp exactly when the date splits
    into three tokens that [int] reads as day, month and year of a date of
    the calendar (year 1 to 9999) and the time, trimmed and in upper case,
    matches the format; the timestamp is then made of those numbers and of
    the hour and minute of the time. *)
Theorem parse_date_time_succeeds_iff (date_str time_str : string) (t : datetime) :
  parse_date_time date_str time_str = Ok t <->
  exists d m y tm,
    date_fields date_str = Some (d, m, y) /\
    valid_date y m d = true /\
    strptime (PyStr.upper (PyStr.strip time_str)) = Ok tm /\
    t = mk_datetime y m d (hour tm) (minute tm).
Proof.
  split.
  - intros H.
    destruct (parse_date_time_Ok _ _ _ H) as (Hv & p1 & p2 & p3 & Hs & E1 & E2 & E3).
    assert (Hf : date_fields date_str = Some (day t, month t, year t)).
    { unfold date_fields. now rewrite Hs, E1, E2, E3. }
    rewrite (parse_date_time_fields _ time_str _ _ _ Hf) in H.
    destruct (strptime _) as [tm|e]; [|discriminate].
    exists (day t), (month t), (year t), tm. repeat split; try assumption.
    now destruct (new_Ok _ _ _ _ _ _ H) as [-> _].
  - intros (d & m & y & tm & Hf & Hv & Ht & ->).
    rewrite (parse_date_time_fields _ _ _ _ _ Hf), Ht.
    destruct (strptime_Ok_range _ _ Ht) as [Hh Hmi].
    now apply new_valid.
Qed.

Lemma parse_date_time_succeeds_iff_witness :
  parse_date_time "29-02-2024" " 11:45 pm " = Ok (mk_datetime 2024 2 29 23 45).
Proof.
  apply (proj2 (parse_date_time_succeeds_iff "29-02-2024" " 11:45 pm "
                  (mk_datetime 2024 2 29 23 45))).
  exists 29, 2, 2024, (mk_datetime 1900 1 1 23 45).
  repeat split; vm_compute; reflexivity.
Defined.

Lemma parse_date_time_raises_cases (date_str time_str : string) (e : exn) :
  parse_date_time date_str time_str = Raise e ->
  (exists msg, e = ValueError msg) \/
  (exists msg d m y,
      e = OverflowError msg /\ date_fields date_str = Some (d, m, y) /\
      fits_c_int d && fits_c_int m && fits_c_int y = false).
Proof.
  intros H.
  destruct (date_fields date_str) as [[[d m] y]|] eqn:Hf.
  - rewrite (parse_date_time_fields _ _ _ _ _ Hf) in H.
    destruct (strptime _) as [tm|et] eqn:Et.
    + destruct (strptime_Ok_range _ _ Et) as [Hh Hmi].
      destruct (new_raises _ _ _ _ _ _ H Hh Hmi) as [Hv | [[msg ->] Hfit]]; [now left|].
      right. exists msg, d, m, y. now repeat split.
    + injection H as <-. left. eauto.
  - rewrite parse_date_time_eq in H. unfold date_fields in Hf.
    destruct (PyStr.split "-" date_str) as [|p1 [|p2 [|p3 [|p4 ps]]]];
      try (injection H as <-; left; eauto).
    destruct (PyInt.int p1) as [d|e1] eqn:E1.
    2:{ injection H as <-. destruct (int_raises _ _ E1) as (msg & -> & _). left. eauto. }
    destruct (PyInt.int p2) as [m|e2] eqn:E2.
    2:{ injection H as <-. destruct (int_raises _ _ E2) as (msg & -> & _). left. eauto. }
    destruct (PyInt.int p3) as [y|e3] eqn:E3; [discriminate|].
    injection H as <-. destruct (int_raises _ _ E3) as (msg & -> & _). left. eauto.
Qed.

(** X2. [parse_date_time] raises nothing but a [ValueError] or an
    [OverflowError], and an [OverflowError] only when the three tokens are
    integers of which one does not fit a C [int]. *)
Theorem parse_date_time_raises_only (date_str time_str : string) (e : exn) :
  parse_date_time date_str time_str = Raise e ->
  (exists msg, e = ValueError msg) \/
  (exists msg d m y,
      e = OverflowError msg /\ date_fields date_str = Some (d, m, y) /\
      fits_c_int d && fits_c_int m && fits_c_int y = false).
Proof.
  intros H.
  destruct (parse_date_time_raises_cases date_str time_str e H) as [Hv | Ho].
  - left. exact Hv.
  - right. exact Ho.
Qed.

Lemma parse_date_time_raises_only_witness :
  (exists msg, OverflowError "signed integer is greater than maximum" = ValueError msg) \/
  (exists msg d m y,
      OverflowError "signed integer is greater than maximum" = OverflowError msg /\
      date_fields "01-01-99999999999" = Some (d, m, y) /\
      fits_c_int d && fits_c_int m && fits_c_int y = false).
Proof.
  apply (parse_date_time_raises_only "01-01-99999999999" "02:00 PM").
  vm_compute. reflexivity.
Defined.

(** X3. When the three tokens of the date are integers and the time is
    malformed, [parse_date_time] reports the time, whatever the numbers are:
    the time is tested before the date is looked at as a date of the
    calendar. *)
Theorem malformed_time_is_reported_before_the_calendar
    (date_str time_str : string) (d m y : Z) :
  date_fields date_str = Some (d, m, y) ->
  time_ok time_str = false ->
  parse_date_time date_str time_str =
    Raise (ValueError "Time must be in HH:MM AM/PM format").
Proof.
  intros Hf Ht. rewrite (parse_date_time_fields _ _ _ _ _ Hf).
  unfold time_ok in Ht. now destruct (strptime _).
Qed.

Lemma malformed_time_is_reported_before_the_calendar_witness :
  parse_date_time "31-02-99999999999" "25:00" =
    Raise (ValueError "Time must be in HH:MM AM/PM format").
Proof.
  apply (malformed_time_is_reported_before_the_calendar
           "31-02-99999999999" "25:00" 31 2 99999999999).
  - vm_compute. reflexivity.
  - vm_compute. reflexivity.
Defined.

(** *** Tokens of digits *)

Lemma digit_char_facts (c : ascii) (s : string) :
  PyStr.isdigit_char c = true ->
  PyInt.c_isspace c = false /\
  PyInt.skip_sign (String c s) = (false, String c s) /\
  PyInt.leading_underscore (String c s) = false.
Proof.
  destruct c as [[] [] [] [] [] [] [] []]; intros H;
    try (vm_compute in H; discriminate H);
    repeat split; vm_compute; reflexivity.
Qed.

Lemma scan_digits (s : string) :
  forall (acc : Z) (k : nat),
    PyStr.all_chars PyStr.isdigit_char s = true -> 0 <= acc ->
    exists v, PyInt.scan s false acc k = Some (v, (k + String.length s)%nat, "") /\
              0 <= v.
Proof.
  induction s as [|c s IH]; intros acc k Hall Hacc; cbn [PyInt.scan String.length].
  - exists acc. rewrite Nat.add_0_r. now split.
  - cbn [PyStr.all_chars] in Hall. apply andb_prop in Hall. destruct Hall as [Hc Hs].
    rewrite Hc.
    assert (Hacc' : 0 <= 10 * acc + Z.of_nat (PyStr.code c - 48)) by lia.
    destruct (IH _ (S k) Hs Hacc') as (v & E & Hv).
    exists v. split; [|exact Hv]. rewrite E. now rewrite Nat.add_succ_r.
Qed.

(** [int] on a token of decimal digits: the number, unless there are more
    than 4300 digits. *)
Lemma int_of_digits (p : string) :
  p <> "" -> PyStr.all_chars PyStr.isdigit_char p = true ->
  PyInt.is_int_literal p = true /\
  ((String.length p <= PyInt.max_str_digits)%nat ->
   exists n, PyInt.int p = Ok n /\ 0 <= n).
Proof.
  destruct p as [|c s]; [intros H; now contradiction H|]. intros _ Hall.
  assert (Hc : PyStr.isdigit_char c = true).
  { cbn [PyStr.all_chars] in Hall. apply andb_prop in Hall. tauto. }
  destruct (digit_char_facts c s Hc) as (Hsp & Hsign & Hlead).
  destruct (scan_digits (String c s) 0 0 Hall (Z.le_refl 0)) as (v & Hscan & Hv).
  assert (Hskip : PyInt.skip_space (String c s) = String c s).
  { cbn [PyInt.skip_space]. now rewrite Hsp. }
  unfold PyInt.is_int_literal, PyInt.int.
  rewrite Hskip, Hsign, Hlead, Hscan. cbn [negb andb PyInt.skip_space Nat.add].
  split; [reflexivity|].
  intros Hlen. apply Nat.ltb_ge in Hlen. rewrite Hlen.
  cbn [String.length Nat.eqb]. exists v. now split.
Qed.

(** An ASCII character that [str.isdigit] accepts is a decimal digit. *)
Lemma ascii_digit_is_decimal (c : ascii) :
  PyStr.is_ascii_char c = true -> PyStr.str_isdigit_char c = true ->
  PyStr.isdigit_char c = true.
Proof.
  destruct c as [[] [] [] [] [] [] [] []]; intros Ha Hd;
    try reflexivity; vm_compute in Ha, Hd; discriminate.
Qed.

Lemma ascii_isdigit_is_decimal (p : string) :
  PyStr.isascii p = true -> PyStr.isdigit p = true ->
  p <> "" /\ PyStr.all_chars PyStr.isdigit_char p = true.
Proof.
  intros Ha Hd. split; [now destruct p|].
  assert (Hall : PyStr.all_chars PyStr.str_isdigit_char p = true) by now destruct p.
  clear Hd. unfold PyStr.isascii in Ha.
  induction p as [|c p IH]; [reflexivity|].
  cbn [PyStr.all_chars] in *.
  apply andb_prop in Ha, Hall. destruct Ha as [Ha1 Ha2], Hall as [Hd1 Hd2].
  now rewrite (ascii_digit_is_decimal c Ha1 Hd1), IH.
Qed.

(** The parts of a text have the characters of the text. *)
Lemma split_all_chars (q : ascii -> bool) (sep : ascii) (s : string) :
  PyStr.all_chars q s = true ->
  Forall (fun part => PyStr.all_chars q part = true) (PyStr.split sep s).
Proof.
  induction s as [|c s IH]; intros H; cbn [PyStr.split].
  - now constructor.
  - cbn [PyStr.all_chars] in H. apply andb_prop in H. destruct H as [Hc Hs].
    specialize (IH Hs). destruct (Ascii.eqb c sep).
    + now constructor.
    + destruct (PyStr.split sep s) as [|part parts].
      * constructor; [|constructor]. cbn [PyStr.all_chars]. now rewrite Hc.
      * inversion IH as [|? ? Hpart Hparts]; subst.
        constructor; [|exact Hparts]. cbn [PyStr.all_chars]. now rewrite Hc, Hpart.
Qed.

(** X4. An ASCII date that passes the stage-3 test has three tokens that
    [int] accepts as integers; and when no token has more than 4300 digits,
    [int] reads from it a day, a month and a year that are not negative: no
    [invalid literal] error of [int] can come from an ASCII date of the
    conversation. *)
Theorem stage_3_date_has_integer_tokens (date_str : string) :
  PyStr.isascii date_str = true ->
  date_format_ok date_str = true ->
  three_int_tokens date_str = true /\
  (Forall (fun p => (String.length p <= PyInt.max_str_digits)%nat)
          (PyStr.split "-" date_str) ->
   exists d m y,
     date_fields date_str = Some (d, m, y) /\ 0 <= d /\ 0 <= m /\ 0 <= y).
Proof.
  intros Hascii. apply (split_all_chars _ "-"%char) in Hascii. revert Hascii.
  unfold date_format_ok, three_int_tokens, date_fields. cbv zeta.
  destruct (PyStr.split "-" date_str) as [|p1 [|p2 [|p3 [|p4 ps]]]];
    try discriminate.
  cbn [List.length Nat.eqb negb orb forallb]. intros Hascii H.
  inversion Hascii as [|? ? A1 Hascii1]; subst.
  inversion Hascii1 as [|? ? A2 Hascii2]; subst.
  inversion Hascii2 as [|? ? A3 _]; subst.
  apply negb_true_iff, negb_false_iff in H.
  apply andb_prop in H. destruct H as [H1 H].
  apply andb_prop in H. destruct H as [H2 H].
  apply andb_prop in H. destruct H as [H3 _].
  destruct (ascii_isdigit_is_decimal p1 A1 H1) as [N1 D1].
  destruct (ascii_isdigit_is_decimal p2 A2 H2) as [N2 D2].
  destruct (ascii_isdigit_is_decimal p3 A3 H3) as [N3 D3].
  destruct (int_of_digits p1 N1 D1) as [L1 I1].
  destruct (int_of_digits p2 N2 D2) as [L2 I2].
  destruct (int_of_digits p3 N3 D3) as [L3 I3].
  rewrite L1, L2, L3. split; [reflexivity|].
  intros Hlen.
  inversion Hlen as [|? ? Hl1 Hlen1]; subst.
  inversion Hlen1 as [|? ? Hl2 Hlen2]; subst.
  inversion Hlen2 as [|? ? Hl3 _]; subst.
  destruct (I1 Hl1) as (d & -> & Hd).
  destruct (I2 Hl2) as (m & -> & Hm).
  destruct (I3 Hl3) as (y & -> & Hy).
  exists d, m, y. now repeat split.
Qed.

Lemma stage_3_date_has_integer_tokens_witness :
  three_int_tokens "31-02-2024" = true /\
  (Forall (fun p => (String.length p <= PyInt.max_str_digits)%nat)
          (PyStr.split "-" "31-02-2024") ->
   exists d m y,
     date_fields "31-02-2024" = Some (d, m, y) /\ 0 <= d /\ 0 <= m /\ 0 <= y).
Proof.
  apply (stage_3_date_has_integer_tokens "31-02-2024"); vm_compute; reflexivity.
Defined.

(** X23. Outside ASCII the stage-3 test and [int] differ: a superscript two
    is a digit for [str.isdigit] and no digit for [int].  The date with the
    day written so is kept at stage 3 and the start time is asked for; at
    stage 5 [parse_date_time] fails in [int] with an invalid literal, and
    every end time is refused with that text. *)
Theorem superscript_day_passes_stage_3 :
  PyStr.isascii superscript_date = false /\
  PyStr.split "-" superscript_date = [String "178" ""; "06"; "2024"] /\
  date_format_ok superscript_date = true /\
  three_int_tokens superscript_date = false /\
  (forall w : World,
      conversational_flow awaiting_date superscript_date w =
        (Returned (awaiting_date ++
                   [User superscript_date;
                    Bot "What is the start time? (HH:MM AM/PM)"])%list, w)) /\
  PyInt.int (String "178" "") =
    Raise (ValueError ("invalid literal for int() with base 10: '" ++
                       String "178" "'")) /\
  (forall time_str : string,
      parse_date_time superscript_date time_str =
        Raise (ValueError ("invalid literal for int() with base 10: '" ++
                           String "178" "'"))) /\
  (forall w : World,
      conversational_flow
        (awaiting_date ++
         [User superscript_date; Bot "What is the start time? (HH:MM AM/PM)";
          User "02:00 PM"; Bot "What is the end time? (HH:MM AM/PM)"])%list
        "03:00 PM" w =
        (Returned
           (awaiting_date ++
            [User superscript_date; Bot "What is the start time? (HH:MM AM/PM)";
             User "02:00 PM"; Bot "What is the end time? (HH:MM AM/PM)";
             Bot ("Invalid time: invalid literal for int() with base 10: '" ++
                  String "178"
                    "'. Please enter a valid end time in HH:MM AM/PM format.")])%list,
         w)).
Proof.
  repeat split; vm_compute; reflexivity.
Qed.

(** *** The order of start and end *)

Lemma parse_date_time_Ok_clock (date_str time_str : string) (t : datetime) :
  parse_date_time date_str time_str = Ok t ->
  0 <= hour t <= 23 /\ 0 <= minute t <= 59.
Proof.
  intros H.
  destruct (parse_date_time_Ok _ _ _ H) as (_ & p1 & p2 & p3 & Hs & E1 & E2 & E3).
  assert (Hf : date_fields date_str = Some (day t, month t, year t)).
  { unfold date_fields. now rewrite Hs, E1, E2, E3. }
  rewrite (parse_date_time_fields _ time_str _ _ _ Hf) in H.
  destruct (strptime _) as [tm|e]; [|discriminate].
  eapply new_Ok_clock. exact H.
Qed.

(** Two timestamps parsed with the same date are compared by the time of
    the day. *)
Lemma same_date_le (date_str start_str end_str : string) (st en : datetime) :
  parse_date_time date_str start_str = Ok st ->
  parse_date_time date_str end_str = Ok en ->
  PyDatetime.le en st = (minute_of_day en <=? minute_of_day st).
Proof.
  intros Hs He.
  destruct (parse_date_time_Ok_clock _ _ _ Hs) as [Hh1 Hm1].
  destruct (parse_date_time_Ok_clock _ _ _ He) as [Hh2 Hm2].
  destruct (parse_date_time_Ok _ _ _ Hs) as (_ & p1 & p2 & p3 & Sp & D1 & M1 & Y1).
  destruct (parse_date_time_Ok _ _ _ He) as (_ & q1 & q2 & q3 & Sq & D2 & M2 & Y2).
  rewrite Sp in Sq. injection Sq as <- <- <-.
  rewrite D1 in D2. rewrite M1 in M2. rewrite Y1 in Y2.
  injection D2 as D2. injection M2 as M2. injection Y2 as Y2.
  unfold PyDatetime.le, fields, minute_of_day. cbn [lex_leb].
  rewrite <- D2, <- M2, <- Y2, !Z.ltb_irrefl, !Z.eqb_refl. cbn [orb andb].
  apply Bool.eq_iff_eq_true.
  rewrite !orb_true_iff, !andb_true_iff, !orb_true_iff, !andb_true_iff.
  rewrite !Z.ltb_lt, !Z.eqb_eq, Z.leb_le. lia.
Qed.

(** X5. At stage 5 the end time is accepted or refused by the time of the
    day alone, since start and end are parsed with the same date: an end time
    that is not later in the day than the start time is dropped with the
    message End time must be after start time, so a booking cannot run past
    midnight. *)
Theorem end_time_not_later_in_the_day_is_refused (T : History)
    (user_input : string) (w : World)
    (u1 name date_str start_str : string) (st en : datetime) :
  user_input <> "" -> is_reset user_input = false ->
  user_messages T = [u1; name; date_str; start_str] ->
  parse_date_time date_str start_str = Ok st ->
  parse_date_time date_str user_input = Ok en ->
  minute_of_day en <= minute_of_day st ->
  conversational_flow T user_input w =
    (Returned (T ++ [Bot "Invalid time: End time must be after start time. Please enter a valid end time in HH:MM AM/PM format."])%list,
     w).
Proof.
  intros Hne Hnr Hu Hs He Hle.
  rewrite flow_stage_5 by eauto using four_user_messages.
  rewrite (booking_details_at_stage_5 _ _ _ _ _ _ Hu), Hs. cbn [bind].
  rewrite He. cbn [bind].
  rewrite (same_date_le _ _ _ _ _ Hs He).
  apply Z.leb_le in Hle. rewrite Hle. reflexivity.
Qed.

Lemma end_time_not_later_in_the_day_is_refused_witness :
  conversational_flow awaiting_end_time_late "01:00 AM" world_ok =
    (Returned (awaiting_end_time_late ++ [Bot "Invalid time: End time must be after start time. Please enter a valid end time in HH:MM AM/PM format."])%list,
     world_ok).
Proof.
  apply (end_time_not_later_in_the_day_is_refused awaiting_end_time_late
           "01:00 AM" world_ok "book an appointment" "Night shift" "15-06-2024"
           "11:00 PM" (mk_datetime 2024 6 15 23 0) (mk_datetime 2024 6 15 1 0)).
  - discriminate.
  - reflexivity.
  - reflexivity.
  - vm_compute. reflexivity.
  - vm_compute. reflexivity.
  - vm_compute. discriminate.
Defined.

(** ** The gateway, continued *)

(** The lookup by the data of the world: the usable credential and an
    untouched world; or the token file removed; or the [os.remove] that
    failed last, with the file still there. *)
Lemma cached_credentials_spec (w : World) :
  match usable_token w with
  | Some creds => cached_credentials w = (Ok (Some creds), w)
  | None =>
      if cache_cleared w
      then exists n, cached_credentials w = (Ok None, touched None n w)
      else token_pickle w <> None /\
           exists k e n,
             os_remove w k = Raise e /\
             cached_credentials w = (Raise e, touched (token_pickle w) n w)
  end.
Proof.
  destruct w as [token file rf flow bd ex rm n tw calls].
  unfold usable_token, cache_cleared, cached_credentials, discard_token_in_try,
    discard_token, remove_token, touched, with_token, count_removal.
  cbn.
  destruct token as [[|[creds|]]|]; cbn;
    try (destruct (valid creds); cbn; [reflexivity|]);
    try (destruct (expired creds && refresh_token creds); cbn);
    try (destruct (rf creds); cbn; [reflexivity|]);
    try (destruct (rm n) as [[]|e1] eqn:E1; cbn);
    try (destruct (rm (S n)) as [[]|e2] eqn:E2; cbn);
    try (eexists; reflexivity);
    (split; [discriminate|]);
    first [ exists (S n), e2; eexists; split; [exact E2|reflexivity]
          | exists n, e1; eexists; split; [exact E1|reflexivity] ].
Qed.

(** What [authenticate_google] leaves of the world: the token file and the
    count of removals aside, it is the world before, with the call
    recorded. *)
Lemma authenticate_google_world (w : World) :
  exists t n,
    snd (authenticate_google w) = record_call Authenticate (touched t n w).
Proof.
  rewrite authenticate_google_eq. cbv zeta.
  pose proof (cached_credentials_spec w) as Hs.
  assert (Hsame : w = touched (token_pickle w) (removals w) w) by now destruct w.
  destruct (usable_token w) as [creds|].
  - rewrite Hs. exists (token_pickle w), (removals w). cbn [snd]. now rewrite <- Hsame.
  - destruct (cache_cleared w).
    + destruct Hs as [n Hs]. rewrite Hs.
      destruct (credentials_json w); [|now exists None, n].
      destruct (consent_flow w) as [c|ef]; [|now exists None, n].
      destruct (token_write w); eexists _, n; reflexivity.
    + destruct Hs as (_ & k & e & n & _ & Hs). rewrite Hs.
      now exists (token_pickle w), n.
Qed.

(** The calendar service is the same and the call is recorded once. *)
Lemma authenticate_google_frame (w : World) :
  execute (snd (authenticate_google w)) = execute w /\
  gateway_calls (snd (authenticate_google w)) = (gateway_calls w ++ [Authenticate])%list.
Proof.
  destruct (authenticate_google_world w) as (t & n & Hw). rewrite Hw. now split.
Qed.

(** [authenticate_google] by the data of the world. *)
Lemma authenticate_google_Ok_iff (w : World) :
  fst (authenticate_google w) = Ok tt <->
  build w = Ok tt /\
  (usable_cache w = true \/
   (cache_cleared w = true /\ credentials_json w = true /\
    (exists creds, consent_flow w = Ok creds) /\ token_write w = Written)).
Proof.
  rewrite authenticate_google_eq. cbv zeta.
  pose proof (cached_credentials_spec w) as Hs. unfold usable_cache.
  destruct (usable_token w) as [creds|].
  - rewrite Hs. cbn [fst]. destruct (build w) as [[]|eb].
    + split; [intros _; split; [reflexivity|now left]|reflexivity].
    + split; [discriminate|intros [H _]; discriminate].
  - destruct (cache_cleared w).
    + destruct Hs as [n Hs]. rewrite Hs.
      destruct (credentials_json w).
      * destruct (consent_flow w) as [c|ef].
        -- destruct (token_write w); cbn [fst].
           ++ destruct (build w) as [[]|eb].
              ** split; [intros _|reflexivity].
                 split; [reflexivity|right]. repeat split. eauto.
              ** split; [discriminate|intros [H _]; discriminate].
           ++ split; [discriminate|].
              intros [_ [H | (_ & _ & _ & H)]]; discriminate.
           ++ split; [discriminate|].
              intros [_ [H | (_ & _ & _ & H)]]; discriminate.
        -- cbn [fst]. split; [discriminate|].
           intros [_ [H | (_ & _ & [c H] & _)]]; discriminate.
      * cbn [fst]. split; [discriminate|].
        intros [_ [H | (_ & H & _)]]; discriminate.
    + destruct Hs as (_ & k & e & n & _ & Hs). rewrite Hs. cbn [fst].
      split; [discriminate|]. intros [_ [H | (H & _)]]; discriminate.
Qed.

(** A service comes with a credential: a cached one, or that of the consent
    flow. *)
Lemma authenticate_google_Ok_credential (w : World) :
  fst (authenticate_google w) = Ok tt ->
  usable_cache w = true \/
  (credentials_json w = true /\ exists creds, consent_flow w = Ok creds).
Proof.
  intros H. apply authenticate_google_Ok_iff in H.
  destruct H as [_ [H | (_ & Hf & Hc & _)]]; [now left|right; now split].
Qed.



(** X7. [authenticate_google] returns a service exactly when [build]
    succeeds and there is a credential to give it: a usable one in the token
    file; or the one of a successful consent flow, which takes that the
    token file, if there is one, can be removed, that [credentials.json] is
    present and that the new token file can be written. *)
Theorem authenticate_google_succeeds_iff (w : World) :
  fst (authenticate_google w) = Ok tt <->
  build w = Ok tt /\
  (usable_cache w = true \/
   (cache_cleared w = true /\ credentials_json w = true /\
    (exists creds, consent_flow w = Ok creds) /\ token_write w = Written)).
Proof.
  apply authenticate_google_Ok_iff.
Qed.

(** X8. The token file after [authenticate_google]: untouched when its
    credential is usable (a refreshed credential is not written back) and
    when it cannot be removed; otherwise the old file is gone, and with
    [credentials.json] there and a successful consent flow the new
    credential is written in its place, also when [build] fails afterwards:
    nothing is there when the file cannot be opened, an unreadable file when
    the dump fails. *)
Theorem token_file_after_authenticate_google (w : World) :
  token_pickle (snd (authenticate_google w)) =
    if usable_cache w then token_pickle w
    else if cache_cleared w
    then if credentials_json w
         then match consent_flow w with
              | Ok creds =>
                  match token_write w with
                  | Written => Some (Pickled (Some creds))
                  | OpenFails _ => None
                  | DumpFails _ => Some Unreadable
                  end
              | Raise _ => None
              end
         else None
    else token_pickle w.
Proof.
  rewrite authenticate_google_eq. cbv zeta.
  pose proof (cached_credentials_spec w) as Hs. unfold usable_cache.
  destruct (usable_token w) as [creds|].
  - now rewrite Hs.
  - destruct (cache_cleared w).
    + destruct Hs as [n Hs]. rewrite Hs.
      destruct (credentials_json w); [|reflexivity].
      destruct (consent_flow w) as [c|ef]; [|reflexivity].
      now destruct (token_write w).
    + destruct Hs as (_ & k & e & n & _ & Hs). now rewrite Hs.
Qed.

(** [create_event], case by case. *)
Lemma create_event_eq (event_name : string) (start_time end_time : datetime)
    (w : World) :
  create_event event_name start_time end_time w =
    let event := event_body event_name start_time end_time in
    let w1 := record_call (Insert event) w in
    match execute w event with
    | Ok _ =>
        (Ok ("Event " ++ String PyStr.dquote event_name ++
             String PyStr.dquote " created successfully!"), w1)
    | Raise e =>
        if PyStr.contains "invalid_grant" (str_exn e)
        then
          let failure :=
            Exception (("Failed to create event: " ++ str_exn e) ++
                       String PyStr.newline
                         "Please restart the application to re-authenticate.") in
          match token_pickle w with
          | Some _ =>
              match os_remove w (removals w) with
              | Ok _ => (Raise failure, with_token None (count_removal w1))
              | Raise e' => (Raise e', count_removal w1)
              end
          | None => (Raise failure, w1)
          end
        else (Raise (Exception ("Failed to create event: " ++ str_exn e)), w1)
    end.
Proof.
  destruct w as [token file rf flow bd ex rm n tw calls].
  unfold create_event, event_body, record_call, remove_token, with_token,
    count_removal.
  cbv zeta.
  cbn [token_pickle credentials_json refresh consent_flow build execute os_remove
       removals token_write gateway_calls].
  destruct (ex _) as [[]|e]; [reflexivity|].
  destruct (PyStr.contains "invalid_grant" (str_exn e)); [|reflexivity].
  destruct token; [|reflexivity].
  now destruct (rm n) as [[]|e'].
Qed.

Lemma append_empty_r (s : string) : s ++ "" = s.
Proof.
  induction s as [|c s IH]; cbn [String.append]; [reflexivity|now rewrite IH].
Qed.

(** X9. When the insertion fails, the call is recorded and nothing but the
    token file changes.  If the text of the failure has no invalid_grant in
    it, [create_event] raises one plain [Exception] whose text is Failed to
    create event: and the text of the failure, and the token file stays.  If
    it has, the token file is removed inside the handler: when there is no
    token file, or the removal succeeds, the [Exception] has the text of the
    failure and the advice to restart, and the next [authenticate_google] has
    no cached credential to use and succeeds only through [credentials.json]
    and the consent flow; when the removal raises, [create_event] raises that
    exception instead, and the token file stays. *)
Theorem create_event_failure (event_name : string) (start_time end_time : datetime)
    (w : World) (e : exn) :
  execute w (event_body event_name start_time end_time) = Raise e ->
  let r := create_event event_name start_time end_time w in
  let w' := snd r in
  gateway_calls w' =
    (gateway_calls w ++ [Insert (event_body event_name start_time end_time)])%list /\
  execute w' = execute w /\
  (PyStr.contains "invalid_grant" (str_exn e) = false ->
   fst r = Raise (Exception ("Failed to create event: " ++ str_exn e)) /\
   token_pickle w' = token_pickle w) /\
  (PyStr.contains "invalid_grant" (str_exn e) = true ->
   (token_pickle w = None \/ os_remove w (removals w) = Ok tt ->
    fst r = Raise (Exception ("Failed to create event: " ++ str_exn e ++
                     String PyStr.newline
                       "Please restart the application to re-authenticate.")) /\
    token_pickle w' = None /\ usable_cache w' = false /\
    (fst (authenticate_google w') = Ok tt ->
     credentials_json w = true /\ exists creds, consent_flow w = Ok creds)) /\
   (forall e', token_pickle w <> None -> os_remove w (removals w) = Raise e' ->
    fst r = Raise e' /\ token_pickle w' = token_pickle w)).
Proof.
  intros He. cbv zeta. rewrite create_event_eq. cbv zeta. rewrite He.
  assert (Hnext :
    forall w0 : World,
      token_pickle w0 = None -> credentials_json w0 = credentials_json w ->
      consent_flow w0 = consent_flow w ->
      token_pickle w0 = None /\ usable_cache w0 = false /\
      (fst (authenticate_google w0) = Ok tt ->
       credentials_json w = true /\ exists creds, consent_flow w = Ok creds)).
  { intros w0 H0 Hf Hc.
    assert (Hu : usable_cache w0 = false).
    { unfold usable_cache, usable_token. now rewrite H0. }
    split; [exact H0|]. split; [exact Hu|]. intros Hok.
    destruct (authenticate_google_Ok_credential w0 Hok) as [H | H];
      [congruence|]. now rewrite <- Hf, <- Hc. }
  assert (Htext :
    ("Failed to create event: " ++ str_exn e) ++
      String PyStr.newline "Please restart the application to re-authenticate." =
    "Failed to create event: " ++ str_exn e ++
      String PyStr.newline "Please restart the application to re-authenticate.").
  { reflexivity. }
  destruct (PyStr.contains "invalid_grant" (str_exn e)) eqn:Hgrant.
  - destruct (token_pickle w) as [t|] eqn:Htoken.
    + destruct (os_remove w (removals w)) as [[]|er] eqn:Hrm; cbn [fst snd].
      * split; [reflexivity|]. split; [reflexivity|]. split; [discriminate|].
        intros _. split.
        -- intros _. split; [now rewrite Htext|]. now apply Hnext.
        -- intros e' _ H. discriminate.
      * split; [reflexivity|]. split; [reflexivity|]. split; [discriminate|].
        intros _. split.
        -- intros [H|H]; discriminate.
        -- intros e' _ H. injection H as <-. split; [reflexivity|].
           cbn. exact Htoken.
    + cbn [fst snd]. split; [reflexivity|]. split; [reflexivity|].
      split; [discriminate|]. intros _. split.
      * intros _. split; [now rewrite Htext|]. apply Hnext; try reflexivity.
        cbn. exact Htoken.
      * intros e' H. now contradiction H.
  - cbn [fst snd]. split; [reflexivity|]. split; [reflexivity|].
    split; [|discriminate]. intros _. now split.
Qed.

Lemma create_event_failure_witness :
  let r := create_event "Dentist" (mk_datetime 2024 6 15 14 0)
             (mk_datetime 2024 6 15 15 0) world_invalid_grant_locked in
  let w' := snd r in
  let e := Exception "invalid_grant: Token has been expired or revoked." in
  gateway_calls w' =
    (gateway_calls world_invalid_grant_locked ++
     [Insert (event_body "Dentist" (mk_datetime 2024 6 15 14 0)
                (mk_datetime 2024 6 15 15 0))])%list /\
  execute w' = execute world_invalid_grant_locked /\
  (PyStr.contains "invalid_grant" (str_exn e) = false ->
   fst r = Raise (Exception ("Failed to create event: " ++ str_exn e)) /\
   token_pickle w' = token_pickle world_invalid_grant_locked) /\
  (PyStr.contains "invalid_grant" (str_exn e) = true ->
   (token_pickle world_invalid_grant_locked = None \/
    os_remove world_invalid_grant_locked (removals world_invalid_grant_locked) = Ok tt ->
    fst r = Raise (Exception ("Failed to create event: " ++ str_exn e ++
                     String PyStr.newline
                       "Please restart the application to re-authenticate.")) /\
    token_pickle w' = None /\ usable_cache w' = false /\
    (fst (authenticate_google w') = Ok tt ->
     credentials_json world_invalid_grant_locked = true /\
     exists creds, consent_flow world_invalid_grant_locked = Ok creds)) /\
   (forall e', token_pickle world_invalid_grant_locked <> None ->
    os_remove world_invalid_grant_locked (removals world_invalid_grant_locked) = Raise e' ->
    fst r = Raise e' /\ token_pickle w' = token_pickle world_invalid_grant_locked)).
Proof.
  apply (create_event_failure "Dentist" (mk_datetime 2024 6 15 14 0)
           (mk_datetime 2024 6 15 15 0) world_invalid_grant_locked
           (Exception "invalid_grant: Token has been expired or revoked.")).
  reflexivity.
Defined.

(** ** The conversation, continued *)

(** The list after a call: a reset, or the list before it and the turns
    added. *)
Lemma flow_shape (T : History) (user_input : string) (w : World) :
  let h := final_history (fst (conversational_flow T user_input w)) in
  h = restarted \/ h = greeting \/
  exists added, h = (T ++ added)%list /\ added_turns user_input added.
Proof.
  cbv zeta.
  destruct (String.eqb user_input "") eqn:Hempty.
  { right. right. exists []. unfold conversational_flow. rewrite Hempty.
    cbn [fst final_history]. rewrite app_nil_r. split; [reflexivity|constructor]. }
  destruct (is_reset user_input) eqn:Hnr.
  { left. unfold conversational_flow, is_reset in *. now rewrite Hempty, Hnr. }
  apply String.eqb_neq in Hempty.
  assert (H1 : forall msg, exists added,
               append T (Bot msg) = (T ++ added)%list /\ added_turns user_input added).
  { intros msg. exists [Bot msg]. split; [reflexivity|constructor]. }
  assert (H2 : forall msg, exists added,
               append (append T (User user_input)) (Bot msg) = (T ++ added)%list /\
               added_turns user_input added).
  { intros msg. exists [User user_input; Bot msg].
    split; [apply append_append|constructor]. }
  assert (H0 : exists added,
               append T (User user_input) = (T ++ added)%list /\
               added_turns user_input added).
  { exists [User user_input]. split; [reflexivity|constructor]. }
  destruct (count_user_turns T) as [|[|[|[|[|[|n]]]]]] eqn:Hc.
  - rewrite flow_stage_1 by assumption.
    destruct (_ || _); cbn [fst final_history]; right; right; auto.
  - rewrite flow_stage_2 by assumption. cbn [fst final_history]. right; right; auto.
  - rewrite flow_stage_3 by assumption.
    destruct (date_format_ok user_input); cbn [fst final_history]; right; right; auto.
  - rewrite flow_stage_4 by assumption.
    destruct (strptime _) as [tm|[m|m|m|m]]; cbn [fst final_history]; right; right; auto.
  - rewrite flow_stage_5 by assumption.
    destruct (booking_details _ _) as [[[name st] en]|[m|m|m|m]];
      [destruct (book name st en w) as [[result|e] w']| | | |];
      cbn [fst final_history]; right; right; auto.
    exists [User user_input; Bot result;
            Bot "Do you need to book any other appointments? (yes/no)"].
    split; [|constructor]. unfold append. now rewrite <- !app_assoc.
  - rewrite flow_stage_6 by assumption.
    destruct (String.eqb _ "yes"); [right; now left|].
    destruct (String.eqb _ "no"); cbn [fst final_history]; right; right; auto.
  - rewrite flow_beyond_stage_6 by (assumption || lia). cbn [fst final_history].
    right; right; auto.
Qed.

Lemma added_turns_count (user_input : string) (added : list Turn) :
  added_turns user_input added ->
  (List.length added <= 3)%nat /\ (count_user_turns added <= 1)%nat /\
  Forall known_role added.
Proof.
  intros []; (split; [cbn; lia|]); (split; [rewrite count_is_length; cbn; lia|]);
    repeat (apply Forall_cons || apply Forall_nil);
    unfold known_role; first [left; reflexivity | right; reflexivity].
Qed.

(** X10. [conversational_flow] never rewrites a turn it was given: the list
    it leaves, returned or not, is either a one-turn reset or the list it
    got followed by at most three new turns, of which at most one is a User
    turn; so the stage goes up by one at most. *)
Theorem conversational_flow_keeps_earlier_turns (T : History)
    (user_input : string) (w : World) :
  let h := final_history (fst (conversational_flow T user_input w)) in
  h = [("Bot", "Conversation restarted. Hi! How may I assist you?")] \/
  h = [("Bot", "Hi! How may I assist you?")] \/
  (firstn (List.length T) h = T /\
   (List.length h <= List.length T + 3)%nat /\
   (get_conversation_stage T <= get_conversation_stage h
    <= S (get_conversation_stage T))%nat).
Proof.
  cbv zeta.
  destruct (flow_shape T user_input w) as [E | [E | (added & E & Hadded)]].
  - left. exact E.
  - right. left. exact E.
  - right. right. rewrite E.
    destruct (added_turns_count _ _ Hadded) as (Hlen & Hcount & _).
    rewrite firstn_app, firstn_all, Nat.sub_diag, length_app. cbn [firstn].
    rewrite app_nil_r. split; [reflexivity|]. split; [lia|].
    rewrite !stage_is_length, user_messages_app, length_app, <- !count_is_length.
    lia.
Qed.

(** A transcript of the conversation has no speaker but the user and the
    bot. *)
Lemma produced_known_roles (T : History) : produced T -> Forall known_role T.
Proof.
  induction 1 as [| |T user_input w _ IH].
  - constructor.
  - apply Forall_cons; [now right|constructor].
  - destruct (flow_shape T user_input w) as [E | [E | (added & E & Hadded)]];
      rewrite E.
    + apply Forall_cons; [now right|constructor].
    + apply Forall_cons; [now right|constructor].
    + apply Forall_app. split; [exact IH|].
      now destruct (added_turns_count _ _ Hadded) as (_ & _ & Hr).
Qed.

Lemma booking_details_raises (T : History) (user_input : string) (e : exn)
    (u1 name date_str start_str : string) :
  user_messages T = [u1; name; date_str; start_str] ->
  booking_details (append T (User user_input)) user_input = Raise e ->
  (exists msg, e = ValueError msg) \/
  (exists msg d m y,
      e = OverflowError msg /\ date_fields date_str = Some (d, m, y) /\
      fits_c_int d && fits_c_int m && fits_c_int y = false).
Proof.
  intros Hu. rewrite (booking_details_at_stage_5 _ _ _ _ _ _ Hu).
  destruct (parse_date_time date_str start_str) as [st|es] eqn:Es.
  2:{ intros [= <-]. eapply parse_date_time_raises_cases. exact Es. }
  cbn [bind].
  destruct (parse_date_time date_str user_input) as [en|ee] eqn:Ee.
  2:{ intros [= <-]. eapply parse_date_time_raises_cases. exact Ee. }
  cbn [bind]. destruct (PyDatetime.le en st); [|discriminate].
  intros [= <-]. left. eauto.
Qed.

(** X11. The only exception that leaves [conversational_flow] is the
    [OverflowError] of [datetime], at stage 5, for a date of which a number
    does not fit a C [int]; the list then holds the end time with no reply
    and the world is untouched. *)
Theorem conversational_flow_raises_only (T : History) (user_input : string)
    (w w' : World) (e : exn) (h : History) :
  conversational_flow T user_input w = (Raised e h, w') ->
  get_conversation_stage h = 5%nat /\
  h = (T ++ [("User", user_input)])%list /\ w' = w /\
  exists msg date_str d m y,
    e = OverflowError msg /\
    nth_error (user_messages T) 2 = Some date_str /\
    date_fields date_str = Some (d, m, y) /\
    fits_c_int d && fits_c_int m && fits_c_int y = false.
Proof.
  destruct (String.eqb user_input "") eqn:Hempty.
  { unfold conversational_flow. rewrite Hempty. discriminate. }
  destruct (is_reset user_input) eqn:Hnr.
  { unfold conversational_flow, is_reset in *. rewrite Hempty, Hnr. discriminate. }
  apply String.eqb_neq in Hempty.
  destruct (count_user_turns T) as [|[|[|[|[|[|n]]]]]] eqn:Hc.
  - rewrite flow_stage_1 by assumption. destruct (_ || _); discriminate.
  - rewrite flow_stage_2 by assumption. discriminate.
  - rewrite flow_stage_3 by assumption. destruct (date_format_ok _); discriminate.
  - rewrite flow_stage_4 by assumption.
    destruct (strptime _) as [tm|es] eqn:Es; [discriminate|].
    destruct (strptime_raises_ValueError _ _ Es) as [m ->]. discriminate.
  - rewrite flow_stage_5 by assumption.
    pose proof (count_is_length T) as Hlen. rewrite Hc in Hlen.
    destruct (user_messages T) as [|u1 [|name [|date_str [|start_str [|a5 rest]]]]] eqn:Hu;
      try discriminate.
    destruct (booking_details _ _) as [[[nm st] en]|eb] eqn:Hb.
    { destruct (book nm st en w) as [[result|e'] w1]; discriminate. }
    destruct (booking_details_raises _ _ _ _ _ _ _ Hu Hb)
      as [[msg ->] | (msg & d & m & y & -> & Hf & Hfit)]; [discriminate|].
    intros [= <- <- <-]. split.
    { rewrite stage_append_User. now rewrite Hc. }
    repeat split. exists msg, date_str, d, m, y. now repeat split.
  - rewrite flow_stage_6 by assumption.
    destruct (String.eqb _ "yes"); [discriminate|].
    destruct (String.eqb _ "no"); discriminate.
  - rewrite flow_beyond_stage_6 by (assumption || lia). discriminate.
Qed.

Lemma conversational_flow_raises_only_witness :
  get_conversation_stage (awaiting_end_time_far_year ++ [User "03:00 PM"])%list = 5%nat /\
  (awaiting_end_time_far_year ++ [User "03:00 PM"])%list =
    (awaiting_end_time_far_year ++ [("User", "03:00 PM")])%list /\
  world_ok = world_ok /\
  exists msg date_str d m y,
    OverflowError "signed integer is greater than maximum" = OverflowError msg /\
    nth_error (user_messages awaiting_end_time_far_year) 2 = Some date_str /\
    date_fields date_str = Some (d, m, y) /\
    fits_c_int d && fits_c_int m && fits_c_int y = false.
Proof.
  apply (conversational_flow_raises_only awaiting_end_time_far_year "03:00 PM"
           world_ok world_ok).
  vm_compute. reflexivity.
Defined.

(** *** The gateway calls of a turn *)

Lemma create_event_calls (event_name : string) (start_time end_time : datetime)
    (w : World) :
  gateway_calls (snd (create_event event_name start_time end_time w)) =
    (gateway_calls w ++ [Insert (event_body event_name start_time end_time)])%list.
Proof.
  rewrite create_event_eq. cbv zeta.
  destruct (execute w _) as [[]|e]; [reflexivity|].
  destruct (PyStr.contains "invalid_grant" (str_exn e)); [|reflexivity].
  destruct (token_pickle w); [|reflexivity].
  now destruct (os_remove w (removals w)) as [[]|e'].
Qed.

Lemma book_calls (event_name : string) (start_time end_time : datetime) (w : World) :
  gateway_calls (snd (book event_name start_time end_time w)) =
    (gateway_calls w ++
     match fst (authenticate_google w) with
     | Ok _ => [Authenticate; Insert (event_body event_name start_time end_time)]
     | Raise _ => [Authenticate]
     end)%list.
Proof.
  unfold book. pose proof (proj2 (authenticate_google_frame w)) as Hcalls.
  destruct (authenticate_google w) as [[[]|e] w1]; cbn [fst snd] in *.
  - rewrite create_event_calls, Hcalls. now rewrite <- app_assoc.
  - exact Hcalls.
Qed.

(** The world after a call: as before, unless stage 5 went to the gateway. *)
Lemma flow_world (T : History) (user_input : string) (w : World) :
  snd (conversational_flow T user_input w) = w \/
  (count_user_turns T = 4%nat /\
   exists name st en,
     booking_details (append T (User user_input)) user_input = Ok (name, st, en) /\
     snd (conversational_flow T user_input w) = snd (book name st en w)).
Proof.
  destruct (String.eqb user_input "") eqn:Hempty.
  { left. unfold conversational_flow. now rewrite Hempty. }
  destruct (is_reset user_input) eqn:Hnr.
  { left. unfold conversational_flow, is_reset in *. now rewrite Hempty, Hnr. }
  apply String.eqb_neq in Hempty.
  destruct (count_user_turns T) as [|[|[|[|[|[|n]]]]]] eqn:Hc.
  - left. rewrite flow_stage_1 by assumption. now destruct (_ || _).
  - left. now rewrite flow_stage_2 by assumption.
  - left. rewrite flow_stage_3 by assumption. now destruct (date_format_ok _).
  - left. rewrite flow_stage_4 by assumption.
    now destruct (strptime _) as [tm|[m|m|m|m]].
  - rewrite flow_stage_5 by assumption.
    destruct (booking_details _ _) as [[[name st] en]|[m|m|m|m]];
      try (left; reflexivity).
    right. split; [reflexivity|]. exists name, st, en. split; [reflexivity|].
    now destruct (book name st en w) as [[result|e] w'].
  - left. rewrite flow_stage_6 by assumption.
    destruct (String.eqb _ "yes"); [reflexivity|]. now destruct (String.eqb _ "no").
  - left. now rewrite flow_beyond_stage_6 by (assumption || lia).
Qed.

(** Away from the gateway the world is not read: the call gives the same
    outcome in every world and leaves the world as it is. *)
Lemma flow_without_gateway (T : History) (user_input : string) (w w2 : World) :
  user_input = "" \/ is_reset user_input = true \/ count_user_turns T <> 4%nat \/
  (forall name st en,
      booking_details (append T (User user_input)) user_input <> Ok (name, st, en)) ->
  conversational_flow T user_input w = (fst (conversational_flow T user_input w2), w).
Proof.
  intros H.
  destruct (String.eqb user_input "") eqn:Hempty.
  { unfold conversational_flow. now rewrite Hempty. }
  destruct (is_reset user_input) eqn:Hnr.
  { unfold conversational_flow, is_reset in *. now rewrite Hempty, Hnr. }
  apply String.eqb_neq in Hempty.
  destruct H as [H|[H|H]]; [contradiction|discriminate|].
  destruct (count_user_turns T) as [|[|[|[|[|[|n]]]]]] eqn:Hc.
  - rewrite !flow_stage_1 by assumption. now destruct (_ || _).
  - now rewrite !flow_stage_2 by assumption.
  - rewrite !flow_stage_3 by assumption. now destruct (date_format_ok _).
  - rewrite !flow_stage_4 by assumption. now destruct (strptime _) as [tm|[m|m|m|m]].
  - destruct H as [H|H]; [now contradiction H|].
    rewrite !flow_stage_5 by assumption.
    destruct (booking_details _ _) as [[[name st] en]|[m|m|m|m]]; try reflexivity.
    now contradiction (H name st en).
  - rewrite !flow_stage_6 by assumption.
    destruct (String.eqb _ "yes"); [reflexivity|]. now destruct (String.eqb _ "no").
  - now rewrite !flow_beyond_stage_6 by (assumption || lia).
Qed.

(** X12. One call of [conversational_flow] leaves the world as it is when the
    input is empty, when it is a restart command, when the transcript has not
    four User turns, and when start and end do not parse in order.  In the one
    case left it authenticates once and, if that succeeds, inserts one event
    with the details of the transcript: the gateway is called at most once in
    a turn, and never at another stage. *)
Theorem conversational_flow_calls_the_gateway_once_at_most (T : History)
    (user_input : string) (w : World) :
  let w' := snd (conversational_flow T user_input w) in
  (user_input = "" -> w' = w) /\
  (is_reset user_input = true -> w' = w) /\
  (count_user_turns T <> 4%nat -> w' = w) /\
  ((forall name st en,
       booking_details (append T (User user_input)) user_input <> Ok (name, st, en)) ->
   w' = w) /\
  (forall name st en,
      user_input <> "" -> is_reset user_input = false ->
      count_user_turns T = 4%nat ->
      booking_details (append T (User user_input)) user_input = Ok (name, st, en) ->
      gateway_calls w' =
        (gateway_calls w ++
         match fst (authenticate_google w) with
         | Ok _ => [Authenticate; Insert (event_body name st en)]
         | Raise _ => [Authenticate]
         end)%list) /\
  exists calls,
    gateway_calls w' = (gateway_calls w ++ calls)%list /\
    (calls = [] \/ calls = [Authenticate] \/
     exists name st en,
       booking_details (append T (User user_input)) user_input = Ok (name, st, en) /\
       calls = [Authenticate; Insert (event_body name st en)]).
Proof.
  cbv zeta.
  assert (Hsame :
    user_input = "" \/ is_reset user_input = true \/ count_user_turns T <> 4%nat \/
    (forall name st en,
        booking_details (append T (User user_input)) user_input <> Ok (name, st, en)) ->
    snd (conversational_flow T user_input w) = w).
  { intros H. now rewrite (flow_without_gateway T user_input w w H). }
  split; [intros H; apply Hsame; now left|].
  split; [intros H; apply Hsame; right; now left|].
  split; [intros H; apply Hsame; right; right; now left|].
  split; [intros H; apply Hsame; right; right; now right|].
  assert (Hbooked :
    forall name st en,
      user_input <> "" -> is_reset user_input = false ->
      count_user_turns T = 4%nat ->
      booking_details (append T (User user_input)) user_input = Ok (name, st, en) ->
      gateway_calls (snd (conversational_flow T user_input w)) =
        (gateway_calls w ++
         match fst (authenticate_google w) with
         | Ok _ => [Authenticate; Insert (event_body name st en)]
         | Raise _ => [Authenticate]
         end)%list).
  { intros name st en Hne Hnr Hc Hb.
    rewrite flow_stage_5, Hb by assumption.
    rewrite <- book_calls. now destruct (book name st en w) as [[result|e] w']. }
  split; [exact Hbooked|].
  destruct (flow_world T user_input w) as [E | (Hc & name & st & en & Hb & E)].
  - rewrite E. exists []. split; [now rewrite app_nil_r|now left].
  - rewrite E, book_calls. eexists. split; [reflexivity|].
    destruct (fst (authenticate_google w)).
    + right. right. exists name, st, en. now split.
    + right. now left.
Qed.

(** X13. The fifth answer books the event when start and end parse, the end
    is later in the day than the start, authentication succeeds and the
    calendar accepts the insertion: the event carries the second answer as
    its summary, the two timestamps in ISO form and the time zone
    Asia/Kolkata; the transcript gains the end time, the confirmation and the
    question whether to book another. *)
Theorem accepted_end_time_books_the_event (T : History) (user_input : string)
    (w : World) (u1 name date_str start_str : string) (st en : datetime) :
  user_input <> "" -> is_reset user_input = false ->
  user_messages T = [u1; name; date_str; start_str] ->
  parse_date_time date_str start_str = Ok st ->
  parse_date_time date_str user_input = Ok en ->
  minute_of_day st < minute_of_day en ->
  fst (authenticate_google w) = Ok tt ->
  execute w (mk_event name (isoformat st) "Asia/Kolkata" (isoformat en) "Asia/Kolkata")
    = Ok tt ->
  exists w',
    conversational_flow T user_input w =
      (Returned
         (T ++ [("User", user_input);
                ("Bot", ("Event " ++ String PyStr.dquote name ++
                         String PyStr.dquote " created successfully!")%string);
                ("Bot", "Do you need to book any other appointments? (yes/no)")])%list,
       w') /\
    gateway_calls w' =
      (gateway_calls w ++
       [Authenticate;
        Insert (mk_event name (isoformat st) "Asia/Kolkata"
                         (isoformat en) "Asia/Kolkata")])%list.
Proof.
  intros Hne Hnr Hu Hs He Hlt Hauth Hex.
  rewrite flow_stage_5 by eauto using four_user_messages.
  rewrite (booking_details_at_stage_5 _ _ _ _ _ _ Hu), Hs. cbn [bind].
  rewrite He. cbn [bind]. rewrite (same_date_le _ _ _ _ _ Hs He).
  assert (Hgt : (minute_of_day en <=? minute_of_day st) = false) by lia.
  rewrite Hgt.
  pose proof (book_calls name st en w) as Hcalls. rewrite Hauth in Hcalls.
  unfold book in *. pose proof (proj1 (authenticate_google_frame w)) as Hframe.
  destruct (authenticate_google w) as [[[]|e] w1]; cbn [fst snd] in *;
    [|discriminate].
  rewrite create_event_eq in *. cbv zeta in *. unfold event_body in *.
  rewrite Hframe, Hex in *. cbn [snd] in Hcalls.
  eexists. split; [|exact Hcalls].
  unfold append. now rewrite <- !app_assoc.
Qed.

Lemma accepted_end_time_books_the_event_witness :
  exists w',
    conversational_flow awaiting_end_time "03:00 PM" world_stale_token =
      (Returned
         (awaiting_end_time ++
            [("User", "03:00 PM");
             ("Bot", ("Event " ++ String PyStr.dquote "Dentist" ++
                      String PyStr.dquote " created successfully!")%string);
             ("Bot", "Do you need to book any other appointments? (yes/no)")])%list,
       w') /\
    gateway_calls w' =
      (gateway_calls world_stale_token ++
       [Authenticate;
        Insert (mk_event "Dentist" (isoformat (mk_datetime 2024 6 15 14 0)) "Asia/Kolkata"
                         (isoformat (mk_datetime 2024 6 15 15 0)) "Asia/Kolkata")])%list.
Proof.
  apply (accepted_end_time_books_the_event awaiting_end_time "03:00 PM"
           world_stale_token "book an appointment" "Dentist" "15-06-2024" "02:00 PM"
           (mk_datetime 2024 6 15 14 0) (mk_datetime 2024 6 15 15 0)).
  - discriminate.
  - reflexivity.
  - reflexivity.
  - vm_compute. reflexivity.
  - vm_compute. reflexivity.
  - vm_compute. reflexivity.
  - vm_compute. reflexivity.
  - reflexivity.
Defined.

(** X14. After a gateway failure at stage 5 the booking cannot be tried
    again with another end time: the transcript has five User turns, so the
    next input is read as the answer to the question whether to book another,
    which was not asked, and an input that is neither yes nor no is dropped
    with the request to answer yes or no. *)
Theorem failed_booking_is_followed_by_yes_or_no (T : History)
    (user_input next_input : string) (w w' w'' : World)
    (event_name : string) (start_time end_time : datetime) (e : exn) :
  user_input <> "" -> is_reset user_input = false ->
  count_user_turns T = 4%nat ->
  booking_details (append T (User user_input)) user_input =
    Ok (event_name, start_time, end_time) ->
  gateway_fails event_name start_time end_time w e w' ->
  next_input <> "" -> is_reset next_input = false ->
  PyStr.lower next_input <> "yes" -> PyStr.lower next_input <> "no" ->
  let T' := (T ++ [("User", user_input);
                   ("Bot", ("Error: " ++ str_exn e)%string)])%list in
  conversational_flow T user_input w = (Returned T', w') /\
  conversational_flow T' next_input w'' =
    (Returned (T' ++ [("Bot", "Please answer with 'yes' or 'no'.")])%list, w'').
Proof.
  intros Hne Hnr Hc Hd Hg Hne2 Hnr2 Hyes Hno T'. split.
  - apply (stage_5_gateway_error T user_input w w' event_name start_time end_time e);
      try assumption.
    now apply book_fails.
  - assert (Hcount : count_user_turns T' = 5%nat).
    { subst T'. rewrite <- append_append, count_append_Bot, count_append_User.
      now rewrite Hc. }
    rewrite flow_stage_6 by assumption.
    apply String.eqb_neq in Hyes, Hno. now rewrite Hyes, Hno.
Qed.

Lemma failed_booking_is_followed_by_yes_or_no_witness :
  exists w',
    let T' := (awaiting_end_time ++
                 [("User", "03:00 PM");
                  ("Bot", ("Error: " ++
                           str_exn (Exception "Failed to create event: quota exceeded"))%string)])%list in
    conversational_flow awaiting_end_time "03:00 PM" world_insert_fails =
      (Returned T', w') /\
    conversational_flow T' "04:00 PM" w' =
      (Returned (T' ++ [("Bot", "Please answer with 'yes' or 'no'.")])%list, w').
Proof.
  eexists.
  eapply (failed_booking_is_followed_by_yes_or_no awaiting_end_time "03:00 PM"
            "04:00 PM" world_insert_fails _ _ "Dentist"
            (mk_datetime 2024 6 15 14 0) (mk_datetime 2024 6 15 15 0)
            (Exception "Failed to create event: quota exceeded")).
  - discriminate.
  - reflexivity.
  - reflexivity.
  - vm_compute. reflexivity.
  - eapply creation_raises; vm_compute; reflexivity.
  - discriminate.
  - reflexivity.
  - vm_compute. discriminate.
  - vm_compute. discriminate.
Defined.

(** ** The interface *)

(** X15. [display_chat] makes one row for each turn, in the order of the
    turns: the row of a turn of the User has its message on the left and
    nothing on the right, the row of any other turn has its message on the
    right and nothing on the left; the rows with a user message are as many
    as the stage. *)
Theorem display_chat_rows (h : History) :
  List.length (display_chat h) = List.length h /\
  (forall i message,
      nth_error h i = Some ("User", message) ->
      nth_error (display_chat h) i = Some (Some message, None)) /\
  (forall i role message,
      role <> "User" ->
      nth_error h i = Some (role, message) ->
      nth_error (display_chat h) i = Some (None, Some message)) /\
  (forall i, nth_error h i = None -> nth_error (display_chat h) i = None) /\
  List.length (filter (fun row : Row => match fst row with Some _ => true | None => false end)
                      (display_chat h)) = get_conversation_stage h.
Proof.
  split; [apply length_map|]. split; [|split; [|split]].
  - intros i message H. unfold display_chat.
    erewrite map_nth_error by exact H. reflexivity.
  - intros i role message Hrole H. unfold display_chat.
    erewrite map_nth_error by exact H.
    apply String.eqb_neq in Hrole. cbv beta iota. now rewrite Hrole.
  - intros i H. apply nth_error_None. unfold display_chat. rewrite length_map.
    now apply nth_error_None.
  - rewrite stage_is_length. unfold display_chat, user_messages.
    induction h as [|[role msg] h IH]; [reflexivity|].
    cbn [map filter fst]. destruct (String.eqb role "User"); cbn [fst List.length map].
    + now rewrite IH.
    + exact IH.
Qed.

Lemma display_chat_inj (T1 : History) :
  forall T2 : History,
    Forall known_role T1 -> Forall known_role T2 ->
    display_chat T1 = display_chat T2 -> T1 = T2.
Proof.
  induction T1 as [|[r1 m1] T1 IH]; intros [|[r2 m2] T2] H1 H2 E;
    try discriminate; [reflexivity|].
  inversion H1 as [|? ? K1 F1]; subst. inversion H2 as [|? ? K2 F2]; subst.
  cbn [display_chat map] in E. injection E as Ehead Etail.
  rewrite (IH T2 F1 F2 Etail). f_equal.
  unfold known_role in K1, K2. cbn [fst] in K1, K2.
  destruct K1 as [-> | ->], K2 as [-> | ->]; cbn in Ehead;
    try discriminate; now injection Ehead as ->.
Qed.

(** X16. On the transcripts of the conversation the display loses nothing:
    two of them with the same rows are the same list, since their turns have
    no speaker but User and Bot. *)
Theorem display_chat_is_lossless (T1 T2 : History) :
  produced T1 -> produced T2 ->
  display_chat T1 = display_chat T2 -> T1 = T2.
Proof.
  intros P1 P2 E.
  apply display_chat_inj; [now apply produced_known_roles| |exact E].
  now apply produced_known_roles.
Qed.

Lemma display_chat_is_lossless_witness :
  awaiting_end_time = awaiting_end_time.
Proof.
  assert (Hp : produced awaiting_end_time).
  { assert (E : final_history
                  (fst (run greeting
                          ["book an appointment"; "Dentist"; "15-06-2024"; "02:00 PM"]
                          world_ok)) = awaiting_end_time)
      by (vm_compute; reflexivity).
    rewrite <- E. apply run_produced. apply produced_greeting. }
  apply (display_chat_is_lossless awaiting_end_time awaiting_end_time Hp Hp).
  reflexivity.
Defined.

(** *** Blanks and the restart command *)

Lemma keyword_start_is_no_space (c : ascii) :
  PyStr.lower_char c = "r"%char \/ PyStr.lower_char c = "s"%char ->
  PyStr.isspace_char c = false.
Proof.
  destruct c as [[] [] [] [] [] [] [] []]; intros [H | H];
    try reflexivity; vm_compute in H; discriminate H.
Qed.

Lemma strip_not_empty (c : ascii) (s : string) :
  PyStr.isspace_char c = false -> PyStr.strip (String c s) <> "".
Proof.
  intros Hc. unfold PyStr.strip. cbn [PyStr.lstrip]. rewrite Hc.
  cbn [PyStr.rstrip]. rewrite Hc. now destruct (PyStr.rstrip s).
Qed.

(** A restart command is not blank. *)
Lemma reset_is_not_blank (user_input : string) :
  is_reset user_input = true -> PyStr.strip user_input <> "".
Proof.
  intros Hr. apply is_reset_iff in Hr.
  destruct user_input as [|c s]; [cbn in Hr; intuition discriminate|].
  apply strip_not_empty, keyword_start_is_no_space.
  cbn [PyStr.lower PyStr.map_chars reset_keywords In] in Hr.
  destruct Hr as [Hr | [Hr | [Hr | []]]]; injection Hr as Hr _; auto.
Qed.

(** X17. From the interface the restart command works at every stage:
    [handle_input] of an input whose lower-case form is restart, start over
    or reset shows and keeps the one Bot turn of the restart greeting, clears
    the input box and leaves the world alone. *)
Theorem restart_from_the_interface (user_input : string) (h : History) (w : World) :
  In (PyStr.lower user_input) reset_keywords ->
  handle_input user_input h w =
    (Shown [(None, Some "Conversation restarted. Hi! How may I assist you?")]
           [("Bot", "Conversation restarted. Hi! How may I assist you?")] "",
     w).
Proof.
  intros Hin. apply is_reset_iff in Hin.
  pose proof (reset_is_not_blank _ Hin) as Hblank.
  unfold handle_input.
  rewrite (proj2 (String.eqb_neq _ _) Hblank).
  now rewrite (reset_returns_restarted h user_input w Hin).
Qed.

Lemma restart_from_the_interface_witness :
  handle_input "RESET" closed_by_no world_ok =
    (Shown [(None, Some "Conversation restarted. Hi! How may I assist you?")]
           [("Bot", "Conversation restarted. Hi! How may I assist you?")] "",
     world_ok).
Proof.
  apply (restart_from_the_interface "RESET" closed_by_no world_ok).
  cbn. right. right. left. reflexivity.
Defined.

(** X18. A blank input is stopped by the interface, not by the state
    machine: [handle_input] hands back the state unchanged when the input is
    empty once trimmed, whereas [conversational_flow], which tests the input
    untrimmed, takes a non-empty blank input as an answer, as the name of the
    event at stage 2. *)
Theorem blank_input_is_stopped_by_the_interface (user_input : string)
    (T : History) (w : World) :
  PyStr.strip user_input = "" ->
  handle_input user_input T w = (Shown (display_chat T) T "", w) /\
  (user_input <> "" -> count_user_turns T = 1%nat ->
   conversational_flow T user_input w =
     (Returned
        (T ++ [("User", user_input);
               ("Bot", ("Great! You want to create an event for '" ++ user_input ++
                        "'. What is the date? (DD-MM-YYYY)")%string)])%list,
      w)).
Proof.
  intros Hblank. split.
  - unfold handle_input. now rewrite Hblank.
  - intros Hne Hc.
    assert (Hnr : is_reset user_input = false).
    { destruct (is_reset user_input) eqn:Hr; [|reflexivity].
      now destruct (reset_is_not_blank _ Hr). }
    rewrite flow_stage_2 by assumption. now rewrite append_append.
Qed.

Lemma blank_input_is_stopped_by_the_interface_witness :
  handle_input "  " [Bot "Hi! How may I assist you?"; User "book"; Bot "What is the purpose of the appointment?"] world_ok =
    (Shown (display_chat [Bot "Hi! How may I assist you?"; User "book"; Bot "What is the purpose of the appointment?"])
           [Bot "Hi! How may I assist you?"; User "book"; Bot "What is the purpose of the appointment?"] "",
     world_ok) /\
  ("  " <> "" ->
   count_user_turns [Bot "Hi! How may I assist you?"; User "book"; Bot "What is the purpose of the appointment?"] = 1%nat ->
   conversational_flow [Bot "Hi! How may I assist you?"; User "book"; Bot "What is the purpose of the appointment?"] "  " world_ok =
     (Returned
        ([Bot "Hi! How may I assist you?"; User "book"; Bot "What is the purpose of the appointment?"] ++
           [("User", "  ");
            ("Bot", ("Great! You want to create an event for '" ++ "  " ++
                     "'. What is the date? (DD-MM-YYYY)")%string)])%list,
      world_ok)).
Proof.
  apply (blank_input_is_stopped_by_the_interface "  "
           [Bot "Hi! How may I assist you?"; User "book"; Bot "What is the purpose of the appointment?"]
           world_ok).
  reflexivity.
Defined.

(** ** The answers of a transcript *)

Lemma first_answer (T : History) (user_input : string) (w : World) :
  user_messages T = [] ->
  let after := user_messages (final_history (fst (conversational_flow T user_input w))) in
  after = [] \/ (after = [user_input] /\ names_booking user_input = true).
Proof.
  intros Hu. cbv zeta.
  destruct (String.eqb user_input "") eqn:Hempty.
  { left. unfold conversational_flow. now rewrite Hempty. }
  destruct (is_reset user_input) eqn:Hnr.
  { left. unfold conversational_flow, is_reset in *. now rewrite Hempty, Hnr. }
  apply String.eqb_neq in Hempty.
  assert (Hc : count_user_turns T = 0%nat) by now rewrite count_is_length, Hu.
  rewrite flow_stage_1 by assumption. unfold names_booking.
  destruct (_ || _); cbn [fst final_history];
    rewrite ?user_messages_append_Bot, ?user_messages_append_User, Hu;
    [right; now split|now left].
Qed.

Lemma produced_first_answer (T : History) :
  produced T ->
  forall a, nth_error (user_messages T) 0 = Some a -> names_booking a = true.
Proof.
  induction 1 as [| |T user_input w _ IH]; try discriminate.
  intros a.
  destruct (user_messages T) as [|a1 rest] eqn:Hu.
  - destruct (first_answer T user_input w Hu) as [E | [E Hn]]; rewrite E.
    + discriminate.
    + cbn. now intros [= <-].
  - destruct (flow_user_messages T user_input w) as [E | [E | [E _]]]; rewrite E.
    + rewrite Hu. apply IH.
    + discriminate.
    + rewrite Hu. cbn. apply IH.
Qed.

(** X19. In every transcript of the conversation the kept answers have
    passed their stage: the first names a booking, the third is a date of
    three hyphen-separated tokens of digits, the fourth is a time that
    [strptime] accepts once trimmed and in upper case. *)
Theorem produced_answers_are_checked (T : History) :
  produced T ->
  (forall a, nth_error (user_messages T) 0 = Some a ->
             PyStr.contains "appointment" (PyStr.lower a)
             || PyStr.contains "book" (PyStr.lower a) = true) /\
  (forall d, nth_error (user_messages T) 2 = Some d -> date_format_ok d = true) /\
  (forall s, nth_error (user_messages T) 3 = Some s ->
             exists tm, strptime (PyStr.upper (PyStr.strip s)) = Ok tm).
Proof.
  intros Hp. split; [|split].
  - intros a Ha. exact (produced_first_answer T Hp a Ha).
  - intros d Hd. destruct (produced_checked T Hp) as (Hdate & _ & _). now apply Hdate.
  - intros s Hs. destruct (produced_checked T Hp) as (_ & Htime & _).
    specialize (Htime s Hs). unfold time_ok in Htime.
    destruct (strptime _) as [tm|e]; [eauto|discriminate].
Qed.

Lemma produced_answers_are_checked_witness :
  (forall a, nth_error (user_messages awaiting_end_time) 0 = Some a ->
             PyStr.contains "appointment" (PyStr.lower a)
             || PyStr.contains "book" (PyStr.lower a) = true) /\
  (forall d, nth_error (user_messages awaiting_end_time) 2 = Some d ->
             date_format_ok d = true) /\
  (forall s, nth_error (user_messages awaiting_end_time) 3 = Some s ->
             exists tm, strptime (PyStr.upper (PyStr.strip s)) = Ok tm).
Proof.
  apply (produced_answers_are_checked awaiting_end_time).
  assert (E : final_history
                (fst (run greeting
                        ["book an appointment"; "Dentist"; "15-06-2024"; "02:00 PM"]
                        world_ok)) = awaiting_end_time)
    by (vm_compute; reflexivity).
  rewrite <- E. apply run_produced. apply produced_greeting.
Defined.

(** ** Case and blanks in a time *)

Lemma char_case_facts (c : ascii) :
  PyStr.isspace_char (PyStr.upper_char c) = PyStr.isspace_char c /\
  PyStr.isspace_char (PyStr.lower_char c) = PyStr.isspace_char c /\
  PyStr.upper_char (PyStr.upper_char c) = PyStr.upper_char c /\
  PyStr.upper_char (PyStr.lower_char c) = PyStr.upper_char c.
Proof.
  destruct c as [[] [] [] [] [] [] [] []]; repeat split; vm_compute; reflexivity.
Qed.

Section StripMap.
Variable f : ascii -> ascii.
Hypothesis f_space : forall c, PyStr.isspace_char (f c) = PyStr.isspace_char c.

Lemma lstrip_map (s : string) :
  PyStr.lstrip (PyStr.map_chars f s) = PyStr.map_chars f (PyStr.lstrip s).
Proof.
  induction s as [|c s IH]; [reflexivity|].
  cbn [PyStr.map_chars PyStr.lstrip]. rewrite f_space.
  destruct (PyStr.isspace_char c); [exact IH|reflexivity].
Qed.

Lemma rstrip_map (s : string) :
  PyStr.rstrip (PyStr.map_chars f s) = PyStr.map_chars f (PyStr.rstrip s).
Proof.
  induction s as [|c s IH]; [reflexivity|].
  cbn [PyStr.map_chars PyStr.rstrip]. rewrite IH, f_space.
  destruct (PyStr.rstrip s); cbn [PyStr.map_chars]; [|reflexivity].
  now destruct (PyStr.isspace_char c).
Qed.

Lemma strip_map (s : string) :
  PyStr.strip (PyStr.map_chars f s) = PyStr.map_chars f (PyStr.strip s).
Proof.
  unfold PyStr.strip. now rewrite lstrip_map, rstrip_map.
Qed.
End StripMap.

Lemma map_chars_compose (f g h : ascii -> ascii) (s : string) :
  (forall c, f (g c) = h c) ->
  PyStr.map_chars f (PyStr.map_chars g s) = PyStr.map_chars h s.
Proof.
  intros H. induction s as [|c s IH]; [reflexivity|].
  cbn [PyStr.map_chars]. now rewrite H, IH.
Qed.

Lemma rstrip_cons (c : ascii) (s : string) :
  PyStr.rstrip (String c s) =
    match PyStr.rstrip s with
    | EmptyString => if PyStr.isspace_char c then EmptyString else String c EmptyString
    | t => String c t
    end.
Proof. reflexivity. Qed.

Lemma rstrip_idempotent (s : string) :
  PyStr.rstrip (PyStr.rstrip s) = PyStr.rstrip s.
Proof.
  induction s as [|c s IH]; [reflexivity|].
  rewrite rstrip_cons.
  destruct (PyStr.rstrip s) as [|d t] eqn:E.
  - destruct (PyStr.isspace_char c) eqn:Hc; [reflexivity|].
    rewrite rstrip_cons. cbn [PyStr.rstrip]. now rewrite Hc.
  - rewrite rstrip_cons. now rewrite IH.
Qed.

Lemma lstrip_rstrip_lstrip (s : string) :
  PyStr.lstrip (PyStr.rstrip (PyStr.lstrip s)) = PyStr.rstrip (PyStr.lstrip s).
Proof.
  induction s as [|c s IH]; [reflexivity|].
  cbn [PyStr.lstrip]. destruct (PyStr.isspace_char c) eqn:Hc; [exact IH|].
  rewrite rstrip_cons. destruct (PyStr.rstrip s); rewrite ?Hc; cbn [PyStr.lstrip];
    now rewrite Hc.
Qed.

Lemma strip_idempotent (s : string) : PyStr.strip (PyStr.strip s) = PyStr.strip s.
Proof.
  unfold PyStr.strip. now rewrite lstrip_rstrip_lstrip, rstrip_idempotent.
Qed.

(** What [strptime] is given is the same for a time, its upper-case and
    lower-case forms and its trimmed form. *)
Lemma time_normal_form (s : string) :
  PyStr.upper (PyStr.strip (PyStr.upper s)) = PyStr.upper (PyStr.strip s) /\
  PyStr.upper (PyStr.strip (PyStr.lower s)) = PyStr.upper (PyStr.strip s) /\
  PyStr.upper (PyStr.strip (PyStr.strip s)) = PyStr.upper (PyStr.strip s).
Proof.
  unfold PyStr.upper, PyStr.lower. repeat split.
  - rewrite strip_map by (intros c; apply (char_case_facts c)).
    apply map_chars_compose. intros c. apply (char_case_facts c).
  - rewrite strip_map by (intros c; apply (char_case_facts c)).
    apply map_chars_compose. intros c. apply (char_case_facts c).
  - now rewrite strip_idempotent.
Qed.

(** X20. A time is read without regard to case and to blanks around it:
    [parse_date_time] gives the same result, and stage 4 the same verdict,
    for a time, for its lower-case and upper-case forms and for its trimmed
    form. *)
Theorem time_is_read_without_case_and_blanks (date_str time_str : string) :
  (parse_date_time date_str (PyStr.lower time_str) = parse_date_time date_str time_str /\
   parse_date_time date_str (PyStr.upper time_str) = parse_date_time date_str time_str /\
   parse_date_time date_str (PyStr.strip time_str) = parse_date_time date_str time_str) /\
  (time_ok (PyStr.lower time_str) = time_ok time_str /\
   time_ok (PyStr.upper time_str) = time_ok time_str /\
   time_ok (PyStr.strip time_str) = time_ok time_str).
Proof.
  destruct (time_normal_form time_str) as (Hu & Hl & Hs).
  split.
  - unfold parse_date_time. now rewrite Hu, Hl, Hs.
  - unfold time_ok. now rewrite Hu, Hl, Hs.
Qed.

(** ** The world and the transcript *)

(** X21. The transcript after a call depends on the world at stage 5 only,
    and there only when start and end parse in order: for an empty input, for
    a restart command, with a transcript that has not four User turns, and
    with booking details that do not parse, two worlds give the same
    outcome. *)
Theorem transcript_depends_on_the_world_at_stage_5_only (T : History)
    (user_input : string) (w1 w2 : World) :
  user_input = "" \/ is_reset user_input = true \/ count_user_turns T <> 4%nat \/
  (forall name st en,
      booking_details (append T (User user_input)) user_input <> Ok (name, st, en)) ->
  fst (conversational_flow T user_input w1) = fst (conversational_flow T user_input w2).
Proof.
  intros H. now rewrite (flow_without_gateway T user_input w1 w2 H).
Qed.

Lemma transcript_depends_on_the_world_at_stage_5_only_witness :
  fst (conversational_flow awaiting_end_time "restart" world_ok) =
  fst (conversational_flow awaiting_end_time "restart" world_unconfigured).
Proof.
  apply (transcript_depends_on_the_world_at_stage_5_only awaiting_end_time "restart"
           world_ok world_unconfigured).
  right. left. reflexivity.
Defined.
